(** * UrbanPulse: the synthetic series, forecast and scenario pipeline of app.py

    A shallow embedding of the three data transformations of [src/app.py]:
    [generate_real_time_data], [generate_prediction_data] and the Tab 3
    simulation block that derives [df_sim] from [df_rt].

    Conventions of the embedding.
    - Python [int] is [Z].
    - A [datetime] is the number of microseconds since [datetime.min]
      (0001-01-01T00:00:00); a [timedelta] is a number of microseconds.  Both
      types are bounded in Python and their constructors raise
      [OverflowError] outside the bounds; the bounds are written out.
    - A float64 is an exact rational of [Q]: rounding, infinities and NaN are
      not represented, and equalities between computed values are stated up
      to [Qeq].
    - [datetime.now()] and the numpy random state are inputs: the clock
      reading [now] and the stream of standard normal variates still to be
      drawn.
    - A pandas DataFrame is an ordered list of named columns; DataFrame
      objects live in a heap and are referred to by address, so that
      [df_rt.copy()] and the column assignments on [df_sim] are effects on
      that heap.
    - Streamlit's page calls and the plotting helper produce no value the
      pipeline reads; they are left out.  The [st.cache_data] decorator only
      decides when the body of [generate_real_time_data] runs; the body is
      what is embedded. *)

From Stdlib Require Import ZArith QArith Qpower Lqa List String Bool Lia.
From Stdlib Require Import Sorted Permutation.
Import ListNotations.

Local Open Scope Z_scope.

(** ** Exceptions and fallible computations *)

Inductive exn : Type :=
| OverflowError
| ZeroDivisionError
| ValueError
| KeyError
| TypeError
| NameError.

Inductive result (A : Type) : Type :=
| Ok (a : A)
| Raise (e : exn).

Arguments Ok {A} a.
Arguments Raise {A} e.

Definition bind {A B : Type} (c : result A) (k : A -> result B) : result B :=
  match c with
  | Ok a => k a
  | Raise e => Raise e
  end.

Notation "x <- c ;; k" := (bind c (fun x => k))
  (at level 61, c at next level, right associativity).

(** A list comprehension whose body may raise: elements are evaluated left
    to right and the first exception aborts the comprehension. *)
Fixpoint comprehension {A B : Type} (body : A -> result B) (xs : list A)
  : result (list B) :=
  match xs with
  | [] => Ok []
  | x :: xs' =>
      y <- body x ;;
      ys <- comprehension body xs' ;;
      Ok (y :: ys)
  end.

(** [range(lo, hi)]: empty when [hi <= lo]. *)
Definition range (lo hi : Z) : list Z :=
  map (fun i => lo + Z.of_nat i) (seq 0 (Z.to_nat (hi - lo))).

(** ** datetime and timedelta *)

Definition datetime := Z.
Definition timedelta := Z.

(** [datetime.max], 9999-12-31T23:59:59.999999: 3652059 days less one
    microsecond after [datetime.min]. *)
Definition datetime_max : datetime := 315537897599999999.

(** [timedelta.min], -999999999 days, and [timedelta.max], 999999999 days
    23:59:59.999999. *)
Definition timedelta_min : timedelta := -86399999913600000000.
Definition timedelta_max : timedelta := 86399999999999999999.

Definition valid_datetime (t : Z) : bool :=
  (0 <=? t) && (t <=? datetime_max).

Definition valid_timedelta (d : Z) : bool :=
  (timedelta_min <=? d) && (d <=? timedelta_max).

Definition minutes (m : Z) : Z := m * 60000000.

(** [timedelta(minutes=m)] *)
Definition timedelta_of_minutes (m : Z) : result timedelta :=
  if valid_timedelta (minutes m) then Ok (minutes m) else Raise OverflowError.

(** [t + d] and [t - d] on a datetime and a timedelta *)
Definition datetime_add (t : datetime) (d : timedelta) : result datetime :=
  if valid_datetime (t + d) then Ok (t + d) else Raise OverflowError.

Definition datetime_sub (t : datetime) (d : timedelta) : result datetime :=
  if valid_datetime (t - d) then Ok (t - d) else Raise OverflowError.

(** ** [sorted] on datetimes

    A stable insertion sort; on a total order with decidable equality every
    stable sort returns the same list. *)
Fixpoint insert (x : Z) (l : list Z) : list Z :=
  match l with
  | [] => [x]
  | y :: l' => if x <? y then x :: l else y :: insert x l'
  end.

Definition sorted (l : list Z) : list Z := fold_right insert [] l.

(** ** numpy: random normal samples, clip, arange and power *)

(** The standard normal variates the generator will hand out next. *)
Definition RandomState := nat -> Q.

(** [np.random.normal(loc, scale, size)]: [size] samples [loc + scale * z],
    and the advanced state.  A negative [size] is refused. *)
Definition random_normal (loc scale : Q) (size : Z) (rs : RandomState)
  : result (list Q * RandomState) :=
  if size <? 0 then Raise ValueError
  else
    let n := Z.to_nat size in
    Ok (map (fun i => (loc + scale * rs i)%Q) (seq 0 n),
        fun i => rs (n + i)%nat).

Definition Qgtb (a b : Q) : bool := negb (Qle_bool a b).
Definition Qltb (a b : Q) : bool := negb (Qle_bool b a).

Definition np_max (a b : Q) : Q := if Qgtb a b then a else b.
Definition np_min (a b : Q) : Q := if Qltb a b then a else b.

(** [np.clip(a, a_min, a_max)], elementwise [min (max x a_min) a_max] *)
Definition np_clip (a : list Q) (a_min a_max : Q) : list Q :=
  map (fun x => np_min (np_max x a_min) a_max) a.

(** [np.arange(lo, hi)] on integers *)
Definition np_arange (lo hi : Z) : list Z := range lo hi.

(** [x ** ks] for a float [x] and an integer array [ks] *)
Definition np_power (x : Q) (ks : list Z) : list Q :=
  map (fun k => (x ^ k)%Q) ks.

(** [s * ys] for a float scalar and a float array *)
Definition np_scale (s : Q) (ys : list Q) : list Q :=
  map (fun y => (s * y)%Q) ys.

(** ** pandas: columns and DataFrames *)

Inductive column : Type :=
| TimeCol (ts : list datetime)
| FloatCol (xs : list Q).

Definition column_length (c : column) : nat :=
  match c with
  | TimeCol ts => List.length ts
  | FloatCol xs => List.length xs
  end.

Definition DataFrame := list (string * column).

Definition same_lengths (cols : list (string * column)) : bool :=
  match cols with
  | [] => true
  | (_, c) :: rest =>
      forallb (fun nc => Nat.eqb (column_length (snd nc)) (column_length c)) rest
  end.

(** [pd.DataFrame({...})] from a dict of equally long arrays *)
Definition pd_DataFrame (data : list (string * column)) : result DataFrame :=
  if same_lengths data then Ok data else Raise ValueError.

(** Number of rows, [len(df)] *)
Definition rows (df : DataFrame) : nat :=
  match df with
  | [] => O
  | (_, c) :: _ => column_length c
  end.

Definition column_names (df : DataFrame) : list string := map fst df.

Fixpoint lookup_column (df : DataFrame) (name : string) : option column :=
  match df with
  | [] => None
  | (n, c) :: df' => if String.eqb n name then Some c else lookup_column df' name
  end.

(** [df[name] = c] on the table: an existing column is replaced where it
    stands, a new one is appended on the right. *)
Fixpoint assign_column (df : DataFrame) (name : string) (c : column) : DataFrame :=
  match df with
  | [] => [(name, c)]
  | (n, c0) :: df' =>
      if String.eqb n name then (n, c) :: df'
      else (n, c0) :: assign_column df' name c
  end.

(** [col * s] for a column and a float scalar; a datetime column has no
    product with a float. *)
Definition column_mul (c : column) (s : Q) : result column :=
  match c with
  | FloatCol xs => Ok (FloatCol (map (fun x => (x * s)%Q) xs))
  | TimeCol _ => Raise TypeError
  end.

(** Python's true division of two integers *)
Definition truediv (a b : Z) : result Q :=
  if b =? 0 then Raise ZeroDivisionError else Ok (inject_Z a / inject_Z b)%Q.

(** ** The heap of DataFrame objects *)

Definition ref := nat.
Definition heap := list DataFrame.

(** An effectful computation: it reads and updates the heap, and an
    exception leaves the heap as it stood when it was raised. *)
Definition M (A : Type) : Type := heap -> result A * heap.

Definition ret {A : Type} (a : A) : M A := fun h => (Ok a, h).

Definition raise {A : Type} (e : exn) : M A := fun h => (Raise e, h).

Definition mbind {A B : Type} (c : M A) (k : A -> M B) : M B :=
  fun h =>
    match c h with
    | (Ok a, h') => k a h'
    | (Raise e, h') => (Raise e, h')
    end.

Definition lift {A : Type} (c : result A) : M A := fun h => (c, h).

Notation "x <~ c ;; k" := (mbind c (fun x => k))
  (at level 61, c at next level, right associativity).

Definition deref (r : ref) : M DataFrame :=
  fun h =>
    match nth_error h r with
    | Some df => (Ok df, h)
    | None => (Raise NameError, h)
    end.

Fixpoint store (h : heap) (r : ref) (df : DataFrame) : heap :=
  match h, r with
  | [], _ => []
  | _ :: h', O => df :: h'
  | d :: h', S r' => d :: store h' r' df
  end.

(** [df.copy()]: a new object holding the same columns *)
Definition df_copy (r : ref) : M ref :=
  df <~ deref r ;;
  fun h => (Ok (List.length h), h ++ [df]).

(** [df[name]] *)
Definition df_getitem (r : ref) (name : string) : M column :=
  df <~ deref r ;;
  match lookup_column df name with
  | Some c => ret c
  | None => raise KeyError
  end.

(** [df[name] = c], for a column [c] computed from columns of [df] itself
    (it carries the index of [df], so no alignment takes place) *)
Definition df_setitem (r : ref) (name : string) (c : column) : M unit :=
  df <~ deref r ;;
  fun h => (Ok tt, store h r (assign_column df name c)).

(** ** The program *)

Definition Time : string := "Time".
Definition Traffic_Density : string := "Traffic Density (vehicles/min)".
Definition PM25 : string := "PM2.5 (µg/m³)".
Definition Predicted_Value : string := "Predicted Value".
Definition Simulated_Traffic_Density : string := "Simulated Traffic Density".
Definition Simulated_PM25 : string := "Simulated PM2.5".

(** [generate_real_time_data(num_points, interval_minutes)], run when the
    clock reads [now] and the random state is [rs]. *)
Definition generate_real_time_data (now : datetime) (rs : RandomState)
    (num_points interval_minutes : Z) : result (DataFrame * RandomState) :=
  time_series <-
    comprehension
      (fun i => d <- timedelta_of_minutes (interval_minutes * i) ;;
                datetime_sub now d)
      (range 0 num_points) ;;
  let time_series := sorted time_series in
  s1 <- random_normal 50 10 num_points rs ;;
  let traffic_density := np_clip (fst s1) 20 100 in
  s2 <- random_normal 35 8 num_points (snd s1) ;;
  let air_quality := np_clip (fst s2) 10 80 in
  df <- pd_DataFrame [ (Time, TimeCol time_series);
                       (Traffic_Density, FloatCol traffic_density);
                       (PM25, FloatCol air_quality) ] ;;
  Ok (df, snd s2).

(** [generate_prediction_data(latest_value, steps, interval_minutes,
    trend_factor)], run when the clock reads [now]. *)
Definition generate_prediction_data (now : datetime) (latest_value : Q)
    (steps interval_minutes : Z) (trend_factor : Q) : result DataFrame :=
  let last_time := now in
  future_times <-
    comprehension
      (fun i => d <- timedelta_of_minutes (interval_minutes * i) ;;
                datetime_add last_time d)
      (range 1 (steps + 1)) ;;
  let predicted_values :=
    np_scale latest_value (np_power trend_factor (np_arange 1 (steps + 1))) in
  pd_DataFrame [ (Time, TimeCol future_times);
                 (Predicted_Value, FloatCol predicted_values) ].

(** [st.slider(label, min_value, max_value, value, step)]: the readings the
    widget can hand back, from [min_value] to [max_value] in steps of
    [step]. *)
Definition slider_reading (min_value max_value step v : Z) : bool :=
  (min_value <=? v) && (v <=? max_value) && ((v - min_value) mod step =? 0).

(** The Tab 3 block: [df_sim = df_rt.copy()] and the two derived columns,
    for the slider readings [timing_adjustment] and [green_zone_effect].
    It returns the address of [df_sim]. *)
Definition simulate (df_rt : ref) (timing_adjustment green_zone_effect : Z)
  : M ref :=
  df_sim <~ df_copy df_rt ;;
  traffic <~ df_getitem df_sim Traffic_Density ;;
  factor <~ lift (truediv 60 timing_adjustment) ;;
  sim_traffic <~ lift (column_mul traffic factor) ;;
  _ <~ df_setitem df_sim Simulated_Traffic_Density sim_traffic ;;
  pm <~ df_getitem df_sim PM25 ;;
  pct <~ lift (truediv green_zone_effect 100) ;;
  sim_pm <~ lift (column_mul pm (1 - pct)%Q) ;;
  _ <~ df_setitem df_sim Simulated_PM25 sim_pm ;;
  ret df_sim.

(** The table a run of the block hands to its caller: the object behind the
    address it returns. *)
Definition output_table (run : result ref * heap) : result DataFrame :=
  match run with
  | (Ok r, h) =>
      match nth_error h r with
      | Some df => Ok df
      | None => Raise NameError
      end
  | (Raise e, _) => Raise e
  end.

(** The float column [name] of the table a run of the block returns, when it
    returns one that has it. *)
Definition returned_column (run : result ref * heap) (name : string)
  : option (list Q) :=
  match output_table run with
  | Ok df =>
      match lookup_column df name with
      | Some (FloatCol xs) => Some xs
      | _ => None
      end
  | Raise _ => None
  end.

(** ** The page script

    The body of the script, from [df_rt = generate_real_time_data()] to the
    second derived column of [df_sim], without the calls that only draw. *)

(** Exceptions of the script: those of the helpers, and the [IndexError] of
    a positional lookup in an empty column. *)
Inductive page_exn : Type :=
| Helper (e : exn)
| IndexError.

Inductive page_result (A : Type) : Type :=
| Done (a : A)
| Crash (e : page_exn).

Arguments Done {A} a.
Arguments Crash {A} e.

Definition Page (A : Type) : Type := heap -> page_result A * heap.

Definition pbind {A B : Type} (c : Page A) (k : A -> Page B) : Page B :=
  fun h =>
    match c h with
    | (Done a, h') => k a h'
    | (Crash e, h') => (Crash e, h')
    end.

Notation "x <<- c ;; k" := (pbind c (fun x => k))
  (at level 61, c at next level, right associativity).

Definition of_result {A : Type} (c : result A) : Page A :=
  fun h =>
    match c with
    | Ok a => (Done a, h)
    | Raise e => (Crash (Helper e), h)
    end.

Definition of_M {A : Type} (c : M A) : Page A :=
  fun h =>
    match c h with
    | (Ok a, h') => (Done a, h')
    | (Raise e, h') => (Crash (Helper e), h')
    end.

(** A table returned by a helper becomes an object of the script. *)
Definition new_object (df : DataFrame) : Page ref :=
  fun h => (Done (List.length h), h ++ [df]).

(** [df.head()]: the first five rows of every column *)
Definition column_head (c : column) : column :=
  match c with
  | TimeCol ts => TimeCol (firstn 5 ts)
  | FloatCol xs => FloatCol (firstn 5 xs)
  end.

Definition df_head (df : DataFrame) : DataFrame :=
  map (fun nc => (fst nc, column_head (snd nc))) df.

(** [s.iloc[-1]] as the script uses it, on a float column: its last entry,
    and [IndexError] when the column is empty.  (The last entry of a
    datetime column is no float; the forecast cannot scale by it, which is
    given as [TypeError].) *)
Definition iloc_last (c : column) : Page Q :=
  fun h =>
    match c with
    | FloatCol [] => (Crash IndexError, h)
    | FloatCol (x :: xs) => (Done (last (x :: xs) 0%Q), h)
    | TimeCol [] => (Crash IndexError, h)
    | TimeCol (_ :: _) => (Crash (Helper TypeError), h)
    end.

(** What a run of the script leaves for the page to draw. *)
Record page_view : Type := {
  view_rt : ref;
  view_head : DataFrame;
  view_pred_traffic : DataFrame;
  view_pred_air : DataFrame;
  view_sim : ref
}.

(** One run of the script.  [now_rt] and [rs] are the clock reading and the
    random state at which the body of [generate_real_time_data()] ran (with
    its defaults, 100 points 5 minutes apart; under [st.cache_data] that may
    be up to 60 seconds before the run), [now_traffic] and [now_air] the
    clock readings of the two forecasts (on the defaults 12, 5 and 1.05),
    and the last two arguments the readings of the two sliders. *)
Definition page (now_rt : datetime) (rs : RandomState)
    (now_traffic now_air : datetime)
    (timing_adjustment green_zone_effect : Z) : Page page_view :=
  generated <<- of_result (generate_real_time_data now_rt rs 100 5) ;;
  df_rt <<- new_object (fst generated) ;;
  table <<- of_M (deref df_rt) ;;
  let shown := df_head table in
  traffic <<- of_M (df_getitem df_rt Traffic_Density) ;;
  latest_traffic <<- iloc_last traffic ;;
  df_pred_traffic <<-
    of_result (generate_prediction_data now_traffic latest_traffic 12 5 1.05) ;;
  pm <<- of_M (df_getitem df_rt PM25) ;;
  latest_pm25 <<- iloc_last pm ;;
  df_pred_air <<-
    of_result (generate_prediction_data now_air latest_pm25 12 5 1.05) ;;
  df_sim <<- of_M (simulate df_rt timing_adjustment green_zone_effect) ;;
  fun h =>
    (Done {| view_rt := df_rt; view_head := shown;
             view_pred_traffic := df_pred_traffic;
             view_pred_air := df_pred_air; view_sim := df_sim |}, h).

(** ** Tables and inputs the statements refer to *)

(** A HistoricalSeries: the three columns [generate_real_time_data] puts in
    its table. *)
Definition historical (times : list datetime) (traffic air : list Q)
  : DataFrame :=
  [ (Time, TimeCol times); (Traffic_Density, FloatCol traffic);
    (PM25, FloatCol air) ].

(** 2026-11-03T12:00:00 as a clock reading. *)
Definition sample_now : datetime := 63929304000000000.

(** A stream of variates whose samples leave the clamping ranges on both
    sides: -8, -6, -4, ... *)
Definition sample_rs : RandomState :=
  fun i => inject_Z (2 * Z.of_nat i - 8).

(** A heap holding one historical table of two rows at address 0. *)
Definition sample_heap : heap :=
  [ historical [sample_now - minutes 5; sample_now] [48; 52]%Q [30; 40]%Q ].

(** * Properties *)

(** ** Ranges and comprehensions *)

Lemma range_length (lo hi : Z) : List.length (range lo hi) = Z.to_nat (hi - lo).
Proof. unfold range. now rewrite length_map, length_seq. Qed.

Lemma range_nth (lo hi : Z) (i : nat) (d : Z) :
  (i < Z.to_nat (hi - lo))%nat -> nth i (range lo hi) d = lo + Z.of_nat i.
Proof.
  intros Hi. unfold range.
  rewrite (nth_indep _ d (lo + Z.of_nat 0)) by now rewrite length_map, length_seq.
  rewrite (map_nth (fun i => lo + Z.of_nat i) _ 0%nat).
  now rewrite seq_nth.
Qed.

Lemma range_In (lo hi x : Z) : In x (range lo hi) <-> lo <= x < hi.
Proof.
  unfold range. rewrite in_map_iff. split.
  - intros [i [<- Hi]]. apply in_seq in Hi. lia.
  - intros Hx. exists (Z.to_nat (x - lo)). split; [lia|]. apply in_seq. lia.
Qed.

(** A comprehension whose body succeeds on every element is a [map]. *)
Lemma comprehension_map {A B : Type} (body : A -> result B) (f : A -> B)
    (xs : list A) :
  (forall x, In x xs -> body x = Ok (f x)) ->
  comprehension body xs = Ok (map f xs).
Proof.
  induction xs as [|x xs IH]; intros Hb; simpl; [reflexivity|].
  rewrite (Hb x) by now left. simpl.
  rewrite IH by (intros y Hy; apply Hb; now right).
  reflexivity.
Qed.

(** A comprehension that succeeds has evaluated its body on every element. *)
Lemma comprehension_Ok {A B : Type} (body : A -> result B) (xs : list A)
    (ys : list B) :
  comprehension body xs = Ok ys -> Forall2 (fun x y => body x = Ok y) xs ys.
Proof.
  revert ys. induction xs as [|x xs IH]; simpl; intros ys H.
  - injection H as <-. constructor.
  - destruct (body x) as [y|e] eqn:Hy; simpl in H; [|discriminate].
    destruct (comprehension body xs) as [ys'|e] eqn:Hys; simpl in H; [|discriminate].
    injection H as <-. constructor; [exact Hy | now apply IH].
Qed.

(** A comprehension raises as soon as its body does. *)
Lemma comprehension_Raise {A B : Type} (body : A -> result B) (xs : list A)
    (x : A) (e : exn) :
  In x xs -> body x = Raise e ->
  exists e', comprehension body xs = Raise e'.
Proof.
  induction xs as [|y xs IH]; simpl; [tauto|].
  intros [->|Hin] Hx.
  - rewrite Hx. simpl. now exists e.
  - destruct (body y) as [b|e1]; simpl; [|now exists e1].
    destruct (IH Hin Hx) as [e' ->]. simpl. now exists e'.
Qed.

(** ** Timestamps within the range of [datetime] *)

Lemma minutes_valid_timedelta (m : Z) :
  - datetime_max <= minutes m <= datetime_max ->
  timedelta_of_minutes m = Ok (minutes m).
Proof.
  intros H. unfold timedelta_of_minutes, valid_timedelta.
  unfold datetime_max, timedelta_min, timedelta_max in *.
  replace (_ && _) with true; [reflexivity|].
  symmetry. apply andb_true_intro. split; apply Z.leb_le; lia.
Qed.

Lemma datetime_add_Ok (t d : Z) :
  0 <= t + d <= datetime_max -> datetime_add t d = Ok (t + d).
Proof.
  intros H. unfold datetime_add, valid_datetime.
  replace (_ && _) with true; [reflexivity|].
  symmetry. apply andb_true_intro. split; apply Z.leb_le; lia.
Qed.

Lemma datetime_sub_Ok (t d : Z) :
  0 <= t - d <= datetime_max -> datetime_sub t d = Ok (t - d).
Proof.
  intros H. unfold datetime_sub, valid_datetime.
  replace (_ && _) with true; [reflexivity|].
  symmetry. apply andb_true_intro. split; apply Z.leb_le; lia.
Qed.

Lemma valid_datetime_spec (t : Z) :
  valid_datetime t = true <-> 0 <= t <= datetime_max.
Proof.
  unfold valid_datetime. rewrite andb_true_iff, !Z.leb_le. tauto.
Qed.

(** ** [sorted] sorts *)

Lemma insert_length (x : Z) (l : list Z) :
  List.length (insert x l) = S (List.length l).
Proof.
  induction l as [|y l IH]; simpl; [reflexivity|].
  destruct (x <? y); simpl; [reflexivity | now rewrite IH].
Qed.

Lemma insert_Permutation (x : Z) (l : list Z) :
  Permutation (x :: l) (insert x l).
Proof.
  induction l as [|y l IH]; simpl; [apply Permutation_refl|].
  destruct (x <? y); [apply Permutation_refl|].
  eapply perm_trans; [apply perm_swap | now apply perm_skip].
Qed.

Lemma sorted_Permutation (l : list Z) : Permutation l (sorted l).
Proof.
  induction l as [|x l IH]; simpl; [constructor|].
  eapply perm_trans; [apply perm_skip, IH | apply insert_Permutation].
Qed.

Lemma insert_Sorted (x : Z) (l : list Z) :
  Sorted Z.le l -> Sorted Z.le (insert x l).
Proof.
  induction 1 as [|y l Hl IH Hy]; simpl; [repeat constructor|].
  destruct (Z.ltb_spec x y) as [Hxy|Hxy].
  - constructor; [now constructor | constructor; lia].
  - constructor; [exact IH|].
    destruct Hy as [|z l Hyz]; simpl; [constructor; exact Hxy|].
    destruct (x <? z); constructor; assumption.
Qed.

Lemma sorted_Sorted (l : list Z) : Sorted Z.le (sorted l).
Proof.
  induction l as [|x l IH]; simpl; [constructor | now apply insert_Sorted].
Qed.

Lemma sorted_length (l : list Z) : List.length (sorted l) = List.length l.
Proof.
  induction l as [|x l IH]; simpl; [reflexivity|].
  now rewrite insert_length, IH.
Qed.

(** Inserting an element no smaller than all the others puts it last. *)
Lemma insert_last (x : Z) (l : list Z) :
  Forall (fun y => y <= x) l -> insert x l = l ++ [x].
Proof.
  induction 1 as [|y l Hy _ IH]; simpl; [reflexivity|].
  destruct (Z.ltb_spec x y); [lia | now rewrite IH].
Qed.

(** On a list that descends, [sorted] is [rev]. *)
Lemma sorted_descending (l : list Z) :
  (forall i j, (i < j < List.length l)%nat -> nth j l 0 <= nth i l 0) ->
  sorted l = rev l.
Proof.
  induction l as [|x l IH]; intros Hd; simpl; [reflexivity|].
  rewrite IH.
  - apply insert_last. apply Forall_forall. intros y Hy.
    apply In_rev in Hy. apply (In_nth _ _ 0) in Hy.
    destruct Hy as [j [Hj <-]]. apply (Hd 0%nat (S j)). simpl. lia.
  - intros i j Hij. apply (Hd (S i) (S j)). simpl. lia.
Qed.

Lemma map_range_nth {B : Type} (f : Z -> B) (lo hi : Z) (i : nat) (d : B) :
  (i < Z.to_nat (hi - lo))%nat ->
  nth i (map f (range lo hi)) d = f (lo + Z.of_nat i).
Proof.
  intros Hi.
  rewrite (nth_indep _ d (f 0)) by now rewrite length_map, range_length.
  rewrite map_nth. now rewrite range_nth.
Qed.

(** ** The forecast *)

(** The table [generate_prediction_data] returns when no timestamp leaves
    the range of [datetime]. *)
Lemma generate_prediction_data_Ok (now : datetime) (latest_value : Q)
    (steps interval_minutes : Z) (trend_factor : Q) :
  0 <= now -> 0 <= interval_minutes ->
  (1 <= steps -> now + minutes (interval_minutes * steps) <= datetime_max) ->
  generate_prediction_data now latest_value steps interval_minutes trend_factor =
  Ok [ (Time,
        TimeCol (map (fun k => now + minutes (interval_minutes * k))
                     (range 1 (steps + 1))));
       (Predicted_Value,
        FloatCol (map (fun k => (latest_value * trend_factor ^ k)%Q)
                      (range 1 (steps + 1)))) ].
Proof.
  intros Hnow Hint Hmax. unfold generate_prediction_data.
  rewrite (comprehension_map _ (fun k => now + minutes (interval_minutes * k))).
  - simpl. unfold pd_DataFrame, same_lengths, np_scale, np_power, np_arange.
    simpl. rewrite !length_map, Nat.eqb_refl. simpl. now rewrite map_map.
  - intros k Hk. apply range_In in Hk.
    assert (Hs : 1 <= steps) by lia. specialize (Hmax Hs).
    assert (Hle : 0 <= minutes (interval_minutes * k)
                  <= minutes (interval_minutes * steps)).
    { unfold minutes. nia. }
    rewrite minutes_valid_timedelta by lia. simpl.
    apply datetime_add_Ok. lia.
Qed.

(** C1, as amended: for every latestValue > 0, steps >= 1, intervalMinutes > 0
    and growthFactor > 0 such that the last timestamp, now +
    intervalMinutes * steps minutes, is still a datetime, the forecast returns
    exactly [steps] rows; the value at step k is latestValue * growthFactor^k
    and its timestamp is now + intervalMinutes * k minutes, for k = 1..steps;
    the timestamps are strictly increasing and all later than the call
    time. *)
Theorem forecast_rows (now : datetime) (latest_value : Q)
    (steps interval_minutes : Z) (trend_factor : Q) :
  valid_datetime now = true ->
  (0 < latest_value)%Q -> 1 <= steps -> 0 < interval_minutes ->
  (0 < trend_factor)%Q ->
  now + minutes (interval_minutes * steps) <= datetime_max ->
  exists times values,
    generate_prediction_data now latest_value steps interval_minutes trend_factor
    = Ok [ (Time, TimeCol times); (Predicted_Value, FloatCol values) ]
    /\ List.length times = Z.to_nat steps
    /\ List.length values = Z.to_nat steps
    /\ (forall k, 1 <= k <= steps ->
          (nth (Z.to_nat (k - 1)) values 0 == latest_value * trend_factor ^ k)%Q
          /\ nth (Z.to_nat (k - 1)) times 0 = now + minutes (interval_minutes * k)
          /\ now < nth (Z.to_nat (k - 1)) times 0)
    /\ (forall j k, 1 <= j -> j < k -> k <= steps ->
          nth (Z.to_nat (j - 1)) times 0 < nth (Z.to_nat (k - 1)) times 0).
Proof.
  intros Hnow _ Hsteps Hint _ Hmax.
  apply valid_datetime_spec in Hnow.
  eexists. eexists. split.
  { apply generate_prediction_data_Ok; lia. }
  assert (Hnth : forall (B : Type) (f : Z -> B) (d : B) k, 1 <= k <= steps ->
            nth (Z.to_nat (k - 1)) (map f (range 1 (steps + 1))) d = f k).
  { intros B f d k Hk. rewrite map_range_nth by lia. f_equal. lia. }
  split; [|split; [|split]].
  - rewrite length_map, range_length. f_equal. lia.
  - rewrite length_map, range_length. f_equal. lia.
  - intros k Hk. rewrite !Hnth by lia. split; [reflexivity|].
    split; [reflexivity|]. unfold minutes. nia.
  - intros j k Hj Hjk Hk. rewrite !Hnth by lia. unfold minutes. nia.
Qed.

(** ** The generator *)

(** The backward steps from [now], before sorting. *)
Lemma backward_steps_Ok (now : datetime) (num_points interval_minutes : Z) :
  0 <= now <= datetime_max -> 0 <= interval_minutes ->
  (1 <= num_points -> 0 <= now - minutes (interval_minutes * (num_points - 1))) ->
  comprehension
    (fun i => d <- timedelta_of_minutes (interval_minutes * i) ;;
              datetime_sub now d)
    (range 0 num_points)
  = Ok (map (fun i => now - minutes (interval_minutes * i)) (range 0 num_points)).
Proof.
  intros Hnow Hint Hmin. apply comprehension_map.
  intros i Hi. apply range_In in Hi.
  assert (Hs : 1 <= num_points) by lia. specialize (Hmin Hs).
  assert (Hle : 0 <= minutes (interval_minutes * i)
                <= minutes (interval_minutes * (num_points - 1))).
  { unfold minutes. nia. }
  rewrite minutes_valid_timedelta by lia. simpl.
  apply datetime_sub_Ok. lia.
Qed.

Lemma backward_steps_sorted (now : datetime) (num_points interval_minutes : Z) :
  0 <= interval_minutes ->
  sorted (map (fun i => now - minutes (interval_minutes * i)) (range 0 num_points))
  = rev (map (fun i => now - minutes (interval_minutes * i)) (range 0 num_points)).
Proof.
  intros Hint. apply sorted_descending.
  rewrite length_map, range_length. intros i j Hij.
  rewrite !map_range_nth by lia. unfold minutes. nia.
Qed.

(** The table [generate_real_time_data] returns when no timestamp leaves the
    range of [datetime]. *)
Lemma generate_real_time_data_Ok (now : datetime) (rs : RandomState)
    (num_points interval_minutes : Z) :
  0 <= now <= datetime_max -> 0 <= interval_minutes -> 0 <= num_points ->
  (1 <= num_points -> 0 <= now - minutes (interval_minutes * (num_points - 1))) ->
  let n := Z.to_nat num_points in
  generate_real_time_data now rs num_points interval_minutes =
  Ok ([ (Time,
         TimeCol (rev (map (fun i => now - minutes (interval_minutes * i))
                           (range 0 num_points))));
        (Traffic_Density,
         FloatCol (np_clip (map (fun i => (50 + 10 * rs i)%Q) (seq 0 n)) 20 100));
        (PM25,
         FloatCol (np_clip (map (fun i => (35 + 8 * rs (n + i)%nat)%Q) (seq 0 n))
                           10 80)) ],
      fun i => rs (n + (n + i))%nat).
Proof.
  intros Hnow Hint Hn Hmin n. unfold generate_real_time_data.
  rewrite backward_steps_Ok by assumption. simpl bind.
  rewrite backward_steps_sorted by assumption.
  unfold random_normal. destruct (Z.ltb_spec num_points 0) as [|_]; [lia|].
  simpl. unfold pd_DataFrame, same_lengths, np_clip. simpl.
  rewrite length_rev, !length_map, length_seq, range_length.
  replace (Z.to_nat (num_points - 0)) with (Z.to_nat num_points) by lia.
  rewrite Nat.eqb_refl. reflexivity.
Qed.

(** C2, as amended: for every positive count and intervalMinutes such that
    the oldest timestamp, now - intervalMinutes * (count - 1) minutes, is
    still a datetime, the generator returns exactly [count] rows; the
    timestamps stand in ascending order, exactly intervalMinutes apart, and
    the newest is [now] itself (stepping backward from now, then sorting).
    With count = 5 and intervalMinutes = 5 they are T-20m, T-15m, T-10m,
    T-5m, T. *)
Theorem generate_rows (now : datetime) (rs : RandomState)
    (count interval_minutes : Z) :
  valid_datetime now = true ->
  0 < count -> 0 < interval_minutes ->
  0 <= now - minutes (interval_minutes * (count - 1)) ->
  exists times traffic air rs',
    generate_real_time_data now rs count interval_minutes
    = Ok ([ (Time, TimeCol times); (Traffic_Density, FloatCol traffic);
            (PM25, FloatCol air) ], rs')
    /\ List.length times = Z.to_nat count
    /\ List.length traffic = Z.to_nat count
    /\ List.length air = Z.to_nat count
    /\ (forall k, 0 <= k < count ->
          nth (Z.to_nat k) times 0
          = now - minutes (interval_minutes * (count - 1 - k)))
    /\ (forall j k, 0 <= j -> j < k -> k < count ->
          nth (Z.to_nat j) times 0 < nth (Z.to_nat k) times 0)
    /\ (forall k, 0 <= k -> k + 1 < count ->
          nth (Z.to_nat (k + 1)) times 0 - nth (Z.to_nat k) times 0
          = minutes interval_minutes)
    /\ nth (Z.to_nat (count - 1)) times 0 = now
    /\ (count = 5 -> interval_minutes = 5 ->
          times = [ now - minutes 20; now - minutes 15; now - minutes 10;
                    now - minutes 5; now ]).
Proof.
  intros Hnow Hcount Hint Hmin.
  apply valid_datetime_spec in Hnow.
  eexists. eexists. eexists. eexists. split.
  { apply generate_real_time_data_Ok; lia. }
  set (f := fun i => now - minutes (interval_minutes * i)).
  assert (Hnth : forall k, 0 <= k < count ->
            nth (Z.to_nat k) (rev (map f (range 0 count))) 0
            = now - minutes (interval_minutes * (count - 1 - k))).
  { intros k Hk.
    rewrite rev_nth by (rewrite length_map, range_length; lia).
    rewrite length_map, range_length, map_range_nth by lia.
    unfold f. do 3 f_equal. lia. }
  repeat split.
  - rewrite length_rev, length_map, range_length. f_equal. lia.
  - unfold np_clip. now rewrite !length_map, length_seq.
  - unfold np_clip. now rewrite !length_map, length_seq.
  - exact Hnth.
  - intros j k Hj Hjk Hk. rewrite !Hnth by lia. unfold minutes. nia.
  - intros k Hk Hk1. rewrite !Hnth by lia. unfold minutes. nia.
  - rewrite Hnth by lia. unfold minutes. lia.
  - intros -> ->. unfold f, minutes. simpl. repeat f_equal; lia.
Qed.

(** ** Clamping *)

Lemma np_clip_bounds (x lo hi : Q) :
  (lo <= hi)%Q -> (lo <= np_min (np_max x lo) hi <= hi)%Q.
Proof.
  intros Hlh. unfold np_min, np_max, Qgtb, Qltb.
  destruct (Qle_bool x lo) eqn:Hx; simpl.
  - destruct (Qle_bool hi lo) eqn:Hh; simpl.
    + apply Qle_bool_iff in Hh. split; [exact Hlh | apply Qle_refl].
    + split; [apply Qle_refl | exact Hlh].
  - assert (Hlx : (lo <= x)%Q).
    { apply Qlt_le_weak, Qnot_le_lt. intros H.
      apply Qle_bool_iff in H. congruence. }
    destruct (Qle_bool hi x) eqn:Hh; simpl.
    + split; [exact Hlh | apply Qle_refl].
    + split; [exact Hlx|].
      apply Qlt_le_weak, Qnot_le_lt. intros H.
      apply Qle_bool_iff in H. congruence.
Qed.



(** C9: with count = 0 the generator raises nothing and returns a table of
    zero rows that has all three columns. *)
Theorem generate_zero_rows (now : datetime) (rs : RandomState)
    (interval_minutes : Z) :
  exists df rs',
    generate_real_time_data now rs 0 interval_minutes = Ok (df, rs')
    /\ rows df = 0%nat
    /\ column_names df = [Time; Traffic_Density; PM25]
    /\ df = historical [] [] [].
Proof.
  eexists. eexists. split; [reflexivity|]. repeat split.
Qed.

(** ** Monotone forecasts *)





(** ** The simulation block on the heap *)

Lemma nth_error_fresh (h : heap) (df : DataFrame) :
  nth_error (h ++ [df]) (List.length h) = Some df.
Proof. rewrite nth_error_app2 by lia. now rewrite Nat.sub_diag. Qed.

Lemma deref_fresh (h : heap) (df : DataFrame) :
  deref (List.length h) (h ++ [df]) = (Ok df, h ++ [df]).
Proof. unfold deref. now rewrite nth_error_fresh. Qed.

Lemma store_fresh (h : heap) (df df' : DataFrame) :
  store (h ++ [df]) (List.length h) df' = h ++ [df'].
Proof.
  induction h as [|d h IH]; simpl; [reflexivity | now rewrite IH].
Qed.

Lemma df_copy_run (h : heap) (r : ref) (df : DataFrame) :
  nth_error h r = Some df -> df_copy r h = (Ok (List.length h), h ++ [df]).
Proof. intros H. unfold df_copy, mbind, deref. now rewrite H. Qed.

Lemma df_copy_dangling (h : heap) (r : ref) :
  nth_error h r = None -> df_copy r h = (Raise NameError, h).
Proof. intros H. unfold df_copy, mbind, deref. now rewrite H. Qed.

Lemma df_getitem_fresh (h : heap) (df : DataFrame) (name : string) :
  df_getitem (List.length h) name (h ++ [df]) =
  (match lookup_column df name with Some c => Ok c | None => Raise KeyError end,
   h ++ [df]).
Proof.
  unfold df_getitem, mbind. rewrite deref_fresh.
  now destruct (lookup_column df name).
Qed.

Lemma df_setitem_fresh (h : heap) (df : DataFrame) (name : string) (c : column) :
  df_setitem (List.length h) name c (h ++ [df]) =
  (Ok tt, h ++ [assign_column df name c]).
Proof.
  unfold df_setitem, mbind. rewrite deref_fresh. now rewrite store_fresh.
Qed.

(** One step of the block: unfold the leading bind and run the operation
    under it on the fresh object. *)
Ltac block_step :=
  unfold mbind at 1;
  first [ rewrite df_getitem_fresh
        | rewrite df_setitem_fresh
        | unfold lift at 1 ].

(** No reading of the signal-cycle slider is 0. *)
Lemma timing_slider_nonzero (timing_adjustment : Z) :
  slider_reading 30 120 5 timing_adjustment = true -> timing_adjustment <> 0.
Proof.
  unfold slider_reading. rewrite !andb_true_iff, !Z.leb_le. lia.
Qed.

(** Objects that were on the heap before an allocation are still there. *)
Lemma nth_error_alloc (h : heap) (r : ref) (df df' : DataFrame) :
  nth_error h r = Some df -> nth_error (h ++ [df']) r = Some df.
Proof.
  intros H. rewrite nth_error_app1; [exact H|].
  apply nth_error_Some. congruence.
Qed.

(** The block on a historical table, for a signal cycle other than 0. *)
Lemma simulate_historical (h : heap) (df_rt : ref) (times : list datetime)
    (traffic air : list Q) (timing_adjustment green_zone_effect : Z) :
  nth_error h df_rt = Some (historical times traffic air) ->
  timing_adjustment <> 0 ->
  simulate df_rt timing_adjustment green_zone_effect h =
  (Ok (List.length h),
   h ++ [ historical times traffic air ++
          [ (Simulated_Traffic_Density,
             FloatCol (map (fun x => (x * (60 / inject_Z timing_adjustment))%Q)
                           traffic));
            (Simulated_PM25,
             FloatCol (map (fun x => (x * (1 - inject_Z green_zone_effect / 100))%Q)
                           air)) ] ]).
Proof.
  intros Hrt Hnz. unfold simulate.
  unfold mbind at 1. rewrite (df_copy_run _ _ _ Hrt).
  block_step. simpl lookup_column.
  block_step. unfold truediv.
  destruct (Z.eqb_spec timing_adjustment 0) as [|_]; [contradiction|].
  block_step. simpl column_mul.
  block_step.
  block_step. simpl lookup_column.
  block_step. simpl (100 =? 0).
  block_step. simpl column_mul.
  block_step.
  reflexivity.
Qed.

(** The block on a historical table when the signal cycle is 0: the
    division raises, after the copy and before any assignment. *)
Lemma simulate_historical_zero (h : heap) (df_rt : ref) (times : list datetime)
    (traffic air : list Q) (green_zone_effect : Z) :
  nth_error h df_rt = Some (historical times traffic air) ->
  simulate df_rt 0 green_zone_effect h =
  (Raise ZeroDivisionError, h ++ [historical times traffic air]).
Proof.
  intros Hrt. unfold simulate.
  unfold mbind at 1. rewrite (df_copy_run _ _ _ Hrt).
  block_step. simpl lookup_column.
  block_step. reflexivity.
Qed.

(** On any table, the outcome of the block and the final content of
    [df_sim] are functions of the table and the two readings alone; the
    heap the block runs in only fixes the address of [df_sim]. *)
Lemma simulate_depends_on_base (base : DataFrame)
    (timing_adjustment green_zone_effect : Z) :
  exists (outcome : result unit) (final : DataFrame),
    forall (h : heap) (df_rt : ref),
      nth_error h df_rt = Some base ->
      simulate df_rt timing_adjustment green_zone_effect h =
      (match outcome with Ok _ => Ok (List.length h) | Raise e => Raise e end,
       h ++ [final]).
Proof.
  destruct (lookup_column base Traffic_Density) as [traffic|] eqn:Htraffic.
  2:{ exists (Raise KeyError), base. intros h df_rt Hrt. unfold simulate.
      unfold mbind at 1. rewrite (df_copy_run _ _ _ Hrt).
      block_step. now rewrite Htraffic. }
  destruct (truediv 60 timing_adjustment) as [factor|e] eqn:Hfactor.
  2:{ exists (Raise e), base. intros h df_rt Hrt. unfold simulate.
      unfold mbind at 1. rewrite (df_copy_run _ _ _ Hrt).
      block_step. rewrite Htraffic.
      block_step. now rewrite Hfactor. }
  destruct (column_mul traffic factor) as [sim_traffic|e] eqn:Hsim.
  2:{ exists (Raise e), base. intros h df_rt Hrt. unfold simulate.
      unfold mbind at 1. rewrite (df_copy_run _ _ _ Hrt).
      block_step. rewrite Htraffic.
      block_step. rewrite Hfactor.
      block_step. now rewrite Hsim. }
  set (df1 := assign_column base Simulated_Traffic_Density sim_traffic).
  destruct (lookup_column df1 PM25) as [pm|] eqn:Hpm.
  2:{ exists (Raise KeyError), df1. intros h df_rt Hrt. unfold simulate.
      unfold mbind at 1. rewrite (df_copy_run _ _ _ Hrt).
      block_step. rewrite Htraffic.
      block_step. rewrite Hfactor.
      block_step. rewrite Hsim.
      block_step. block_step. fold df1. now rewrite Hpm. }
  destruct (truediv green_zone_effect 100) as [pct|e] eqn:Hpct.
  2:{ discriminate. }
  destruct (column_mul pm (1 - pct)%Q) as [sim_pm|e] eqn:Hsim_pm.
  2:{ exists (Raise e), df1. intros h df_rt Hrt. unfold simulate.
      unfold mbind at 1. rewrite (df_copy_run _ _ _ Hrt).
      block_step. rewrite Htraffic.
      block_step. rewrite Hfactor.
      block_step. rewrite Hsim.
      block_step. block_step. fold df1. rewrite Hpm.
      block_step. rewrite Hpct.
      block_step. now rewrite Hsim_pm. }
  exists (Ok tt), (assign_column df1 Simulated_PM25 sim_pm).
  intros h df_rt Hrt. unfold simulate.
  unfold mbind at 1. rewrite (df_copy_run _ _ _ Hrt).
  block_step. rewrite Htraffic.
  block_step. rewrite Hfactor.
  block_step. rewrite Hsim.
  block_step. block_step. fold df1. rewrite Hpm.
  block_step. rewrite Hpct.
  block_step. rewrite Hsim_pm.
  block_step. reflexivity.
Qed.

Lemma scaled_nth (xs : list Q) (s : Q) (i : nat) :
  (i < List.length xs)%nat ->
  nth i (map (fun x => (x * s)%Q) xs) 0%Q = (nth i xs 0 * s)%Q.
Proof.
  intros Hi.
  rewrite (nth_indep _ 0%Q (0 * s)%Q) by now rewrite length_map.
  exact (map_nth (fun x => (x * s)%Q) xs 0%Q i).
Qed.

(** C4: on every historical table, for a signal cycle other than 0 (as
    every reading of its slider is, [timing_slider_nonzero]), the block
    computes simulatedTraffic[i] = baseTraffic[i] * (60 /
    signalCycleSeconds) at every index i; with signalCycleSeconds = 60 the
    simulated column equals the base column, and with signalCycleSeconds =
    30 every simulated value is exactly twice the base value. *)
Theorem simulate_traffic (h : heap) (df_rt : ref) (times : list datetime)
    (traffic air : list Q) (timing_adjustment green_zone_effect : Z) :
  nth_error h df_rt = Some (historical times traffic air) ->
  timing_adjustment <> 0 ->
  exists df_sim h' table sim,
    simulate df_rt timing_adjustment green_zone_effect h = (Ok df_sim, h')
    /\ nth_error h' df_sim = Some table
    /\ lookup_column table Simulated_Traffic_Density = Some (FloatCol sim)
    /\ List.length sim = List.length traffic
    /\ (forall i, (i < List.length traffic)%nat ->
          (nth i sim 0 == nth i traffic 0 * (60 / inject_Z timing_adjustment))%Q)
    /\ (timing_adjustment = 60 ->
        forall i, (i < List.length traffic)%nat ->
                  (nth i sim 0 == nth i traffic 0)%Q)
    /\ (timing_adjustment = 30 ->
        forall i, (i < List.length traffic)%nat ->
                  (nth i sim 0 == 2 * nth i traffic 0)%Q).
Proof.
  intros Hrt Hnz.
  eexists. eexists. eexists. eexists.
  split; [apply simulate_historical; eassumption|].
  split; [apply nth_error_fresh|].
  split; [reflexivity|].
  split; [apply length_map|].
  split; [|split].
  - intros i Hi. now rewrite scaled_nth.
  - intros -> i Hi. rewrite scaled_nth by exact Hi. field.
  - intros -> i Hi. rewrite scaled_nth by exact Hi. field.
Qed.


(** Whatever the table behind [df_rt] and whatever the readings, no object
    that was on the heap before the block ran is changed by it. *)
Lemma simulate_frame (h : heap) (df_rt : ref)
    (timing_adjustment green_zone_effect : Z) (r : ref) (df : DataFrame) :
  nth_error h r = Some df ->
  nth_error (snd (simulate df_rt timing_adjustment green_zone_effect h)) r
  = Some df.
Proof.
  intros Hr. destruct (nth_error h df_rt) as [base|] eqn:Hrt.
  - destruct (simulate_depends_on_base base timing_adjustment green_zone_effect)
      as (outcome & final & Hrun).
    rewrite (Hrun h df_rt Hrt). simpl. now apply nth_error_alloc.
  - unfold simulate. unfold mbind at 1.
    rewrite (df_copy_dangling _ _ Hrt). exact Hr.
Qed.

(** C6, as amended: for every historical table and any integer readings, the
    block leaves the source table, and every other object already on the
    heap, as it was; and when the signal cycle is not 0 its output is a new
    object with the same rows: the Time, TrafficDensity and AirQuality
    columns of the base, unchanged, followed by exactly two derived columns
    of the same length. *)
Theorem simulate_preserves_source (h : heap) (df_rt : ref)
    (times : list datetime) (traffic air : list Q)
    (timing_adjustment green_zone_effect : Z) :
  nth_error h df_rt = Some (historical times traffic air) ->
  (forall r df,
      nth_error h r = Some df ->
      nth_error (snd (simulate df_rt timing_adjustment green_zone_effect h)) r
      = Some df)
  /\ (timing_adjustment <> 0 ->
      exists df_sim h' sim_traffic sim_pm,
        simulate df_rt timing_adjustment green_zone_effect h = (Ok df_sim, h')
        /\ df_sim <> df_rt
        /\ nth_error h' df_rt = Some (historical times traffic air)
        /\ nth_error h' df_sim
           = Some (historical times traffic air
                   ++ [ (Simulated_Traffic_Density, FloatCol sim_traffic);
                        (Simulated_PM25, FloatCol sim_pm) ])
        /\ List.length sim_traffic = List.length traffic
        /\ List.length sim_pm = List.length air).
Proof.
  intros Hrt. split.
  - intros r df Hr. now apply simulate_frame.
  - intros Hnz. eexists. eexists. eexists. eexists.
    split; [apply simulate_historical; eassumption|].
    split.
    { intros Heq. assert (Hlt : (df_rt < List.length h)%nat).
      { apply nth_error_Some. congruence. }
      lia. }
    split; [now apply nth_error_alloc|].
    split; [apply nth_error_fresh|].
    split; apply length_map.
Qed.

(** C8: the block is deterministic and keeps no state of its own: two runs
    on the same table with the same readings return identical tables, or
    raise the same exception, in whatever heaps they run; in particular the
    second of two runs in a row returns what the first did. *)
Theorem simulate_deterministic (base : DataFrame)
    (timing_adjustment green_zone_effect : Z)
    (h1 h2 : heap) (r1 r2 : ref) :
  nth_error h1 r1 = Some base ->
  nth_error h2 r2 = Some base ->
  output_table (simulate r1 timing_adjustment green_zone_effect h1)
  = output_table (simulate r2 timing_adjustment green_zone_effect h2)
  /\ output_table
       (simulate r1 timing_adjustment green_zone_effect
          (snd (simulate r1 timing_adjustment green_zone_effect h1)))
     = output_table (simulate r1 timing_adjustment green_zone_effect h1).
Proof.
  intros H1 H2.
  destruct (simulate_depends_on_base base timing_adjustment green_zone_effect)
    as (outcome & final & Hrun).
  assert (Hout : forall h r, nth_error h r = Some base ->
            output_table (simulate r timing_adjustment green_zone_effect h)
            = match outcome with Ok _ => Ok final | Raise e => Raise e end).
  { intros h r Hr. rewrite (Hrun h r Hr).
    destruct outcome as [[]|e]; simpl; [|reflexivity].
    now rewrite nth_error_fresh. }
  split.
  - now rewrite (Hout h1 r1 H1), (Hout h2 r2 H2).
  - rewrite (Hout h1 r1 H1). apply Hout. now apply simulate_frame.
Qed.

(** C7: called when the clock reads T, with T + 15 minutes still a datetime,
    the forecast for latestValue = 50, steps = 3, intervalMinutes = 5 and
    growthFactor = 1.05 has the timestamps T+5m, T+10m, T+15m and the values
    52.5, 55.125, 57.88125. *)
Theorem forecast_example (T : datetime) :
  valid_datetime T = true ->
  T + minutes 15 <= datetime_max ->
  exists v1 v2 v3,
    generate_prediction_data T 50 3 5 1.05
    = Ok [ (Time, TimeCol [T + minutes 5; T + minutes 10; T + minutes 15]);
           (Predicted_Value, FloatCol [v1; v2; v3]) ]
    /\ (v1 == 52.5)%Q /\ (v2 == 55.125)%Q /\ (v3 == 57.88125)%Q.
Proof.
  intros HT Hmax. apply valid_datetime_spec in HT.
  eexists. eexists. eexists. split.
  - rewrite generate_prediction_data_Ok by (unfold minutes in *; lia).
    reflexivity.
  - repeat split; reflexivity.
Qed.

(** ** The statements at concrete inputs *)

(** C1 as stated fails: one step of 10^10 minutes from 2026 leaves the
    range of [datetime], and the forecast raises instead of returning a
    row. *)
Lemma forecast_rows_counterexample :
  (0 < 50)%Q /\ 1 <= 1 /\ 0 < 10000000000 /\ (0 < 1.05)%Q
  /\ generate_prediction_data sample_now 50 1 10000000000 1.05
     = Raise OverflowError.
Proof.
  split; [reflexivity|]. split; [lia|]. split; [lia|].
  split; reflexivity.
Qed.

Lemma forecast_rows_witness :
  exists times values,
    generate_prediction_data sample_now 50 12 5 1.05
    = Ok [ (Time, TimeCol times); (Predicted_Value, FloatCol values) ]
    /\ List.length times = 12%nat
    /\ List.length values = 12%nat
    /\ (nth 11 values 0 == 50 * 1.05 ^ 12)%Q
    /\ nth 11 times 0 = sample_now + minutes 60.
Proof.
  destruct (forecast_rows sample_now 50 12 5 1.05)
    as (times & values & Hrun & Ht & Hv & Hk & _);
    [reflexivity | reflexivity | lia | lia | reflexivity
    | vm_compute; discriminate |].
  exists times, values.
  destruct (Hk 12 ltac:(lia)) as (H1 & H2 & _).
  repeat split; assumption.
Defined.

(** C2 as stated fails: the second of two steps of 10^10 minutes back from
    2026 falls before year 1, and the generator raises. *)
Lemma generate_rows_counterexample :
  0 < 2 /\ 0 < 10000000000
  /\ generate_real_time_data sample_now sample_rs 2 10000000000
     = Raise OverflowError.
Proof. split; [lia|]. split; [lia | reflexivity]. Qed.

Lemma generate_rows_witness :
  exists times traffic air rs',
    generate_real_time_data sample_now sample_rs 5 5
    = Ok (historical times traffic air, rs')
    /\ times = [ sample_now - minutes 20; sample_now - minutes 15;
                 sample_now - minutes 10; sample_now - minutes 5; sample_now ].
Proof.
  destruct (generate_rows sample_now sample_rs 5 5)
    as (times & traffic & air & rs' & Hrun & _ & _ & _ & _ & _ & _ & _ & Hex);
    [reflexivity | lia | lia | vm_compute; discriminate |].
  exists times, traffic, air, rs'. split; [exact Hrun | now apply Hex].
Defined.


Lemma forecast_example_witness :
  exists v1 v2 v3,
    generate_prediction_data sample_now 50 3 5 1.05
    = Ok [ (Time, TimeCol [ sample_now + minutes 5; sample_now + minutes 10;
                            sample_now + minutes 15 ]);
           (Predicted_Value, FloatCol [v1; v2; v3]) ]
    /\ (v1 == 52.5)%Q /\ (v2 == 55.125)%Q /\ (v3 == 57.88125)%Q.
Proof.
  apply (forecast_example sample_now); [reflexivity | vm_compute; discriminate].
Defined.


Lemma simulate_traffic_witness :
  exists df_sim h' table sim,
    simulate 0%nat 30 10 sample_heap = (Ok df_sim, h')
    /\ nth_error h' df_sim = Some table
    /\ lookup_column table Simulated_Traffic_Density = Some (FloatCol sim)
    /\ (nth 0 sim 0 == 96)%Q /\ (nth 1 sim 0 == 104)%Q.
Proof.
  destruct (simulate_traffic sample_heap 0%nat
              [sample_now - minutes 5; sample_now] [48; 52]%Q [30; 40]%Q 30 10)
    as (df_sim & h' & table & sim & Hrun & Hobj & Hcol & _ & _ & _ & Hdouble);
    [reflexivity | lia |].
  exists df_sim, h', table, sim.
  split; [exact Hrun|]. split; [exact Hobj|]. split; [exact Hcol|].
  split.
  - rewrite (Hdouble eq_refl 0%nat) by (simpl; lia). reflexivity.
  - rewrite (Hdouble eq_refl 1%nat) by (simpl; lia). reflexivity.
Defined.


(** C6 as stated fails: with a signal cycle of 0 the block raises
    [ZeroDivisionError] and has no output table. *)
Lemma simulate_preserves_source_counterexample :
  nth_error sample_heap 0
  = Some (historical [sample_now - minutes 5; sample_now] [48; 52]%Q [30; 40]%Q)
  /\ output_table (simulate 0%nat 0 10 sample_heap) = Raise ZeroDivisionError.
Proof. split; reflexivity. Qed.

Lemma simulate_preserves_source_witness :
  nth_error (snd (simulate 0%nat 0 10 sample_heap)) 0
  = Some (historical [sample_now - minutes 5; sample_now] [48; 52]%Q [30; 40]%Q)
  /\ exists df_sim h' sim_traffic sim_pm,
       simulate 0%nat 45 10 sample_heap = (Ok df_sim, h')
       /\ df_sim <> 0%nat
       /\ nth_error h' 0
          = Some (historical [sample_now - minutes 5; sample_now]
                             [48; 52]%Q [30; 40]%Q)
       /\ nth_error h' df_sim
          = Some (historical [sample_now - minutes 5; sample_now]
                             [48; 52]%Q [30; 40]%Q
                  ++ [ (Simulated_Traffic_Density, FloatCol sim_traffic);
                       (Simulated_PM25, FloatCol sim_pm) ])
       /\ List.length sim_traffic = 2%nat
       /\ List.length sim_pm = 2%nat.
Proof.
  split.
  - apply (simulate_preserves_source sample_heap 0%nat
             [sample_now - minutes 5; sample_now] [48; 52]%Q [30; 40]%Q 0 10);
      reflexivity.
  - apply (simulate_preserves_source sample_heap 0%nat
             [sample_now - minutes 5; sample_now] [48; 52]%Q [30; 40]%Q 45 10);
      [reflexivity | lia].
Defined.

Lemma simulate_deterministic_witness :
  output_table (simulate 0%nat 45 10 sample_heap)
  = output_table (simulate 1%nat 45 10 (historical [] [] [] :: sample_heap))
  /\ output_table
       (simulate 0%nat 45 10 (snd (simulate 0%nat 45 10 sample_heap)))
     = output_table (simulate 0%nat 45 10 sample_heap).
Proof.
  apply (simulate_deterministic
           (historical [sample_now - minutes 5; sample_now] [48; 52]%Q [30; 40]%Q));
    reflexivity.
Defined.

(** * Further properties of the helpers *)

(** ** When a comprehension returns, and what it raises *)

Lemma comprehension_Raise_inv {A B : Type} (body : A -> result B)
    (xs : list A) (e : exn) :
  comprehension body xs = Raise e -> exists x, In x xs /\ body x = Raise e.
Proof.
  induction xs as [|x xs IH]; simpl; [discriminate|].
  destruct (body x) as [y|e1] eqn:Hx; simpl.
  - destruct (comprehension body xs) as [ys|e2]; simpl; [discriminate|].
    intros H. injection H as ->.
    destruct (IH eq_refl) as (x' & Hin & Hx').
    exists x'. split; [now right | exact Hx'].
  - intros H. injection H as ->. exists x. split; [now left | exact Hx].
Qed.

Lemma comprehension_Ok_In {A B : Type} (body : A -> result B) (xs : list A)
    (ys : list B) (x : A) :
  comprehension body xs = Ok ys -> In x xs -> exists y, body x = Ok y.
Proof.
  intros H Hin. destruct (body x) as [y|e] eqn:Hx; [now exists y|].
  destruct (comprehension_Raise _ _ _ _ Hin Hx) as [e' He']. congruence.
Qed.

(** A comprehension that returns, with a body that can only return [f x],
    returns [map f xs]. *)
Lemma comprehension_Ok_map {A B : Type} (body : A -> result B) (f : A -> B)
    (xs : list A) (ys : list B) :
  (forall x y, body x = Ok y -> y = f x) ->
  comprehension body xs = Ok ys -> ys = map f xs.
Proof.
  intros Hf H. apply comprehension_Ok in H.
  induction H as [|x y xs ys Hxy _ IH]; simpl; [reflexivity|].
  now rewrite (Hf x y Hxy), IH.
Qed.

(** ** One step from the clock *)

Lemma step_back_inv (now : datetime) (m : Z) (t : datetime) :
  (d <- timedelta_of_minutes m ;; datetime_sub now d) = Ok t ->
  t = now - minutes m /\ valid_datetime (now - minutes m) = true.
Proof.
  unfold timedelta_of_minutes, datetime_sub.
  destruct (valid_timedelta (minutes m)); simpl; [|discriminate].
  destruct (valid_datetime (now - minutes m)) eqn:Hv; [|discriminate].
  intros H. injection H as <-. now split.
Qed.

Lemma step_ahead_inv (now : datetime) (m : Z) (t : datetime) :
  (d <- timedelta_of_minutes m ;; datetime_add now d) = Ok t ->
  t = now + minutes m /\ valid_datetime (now + minutes m) = true.
Proof.
  unfold timedelta_of_minutes, datetime_add.
  destruct (valid_timedelta (minutes m)); simpl; [|discriminate].
  destruct (valid_datetime (now + minutes m)) eqn:Hv; [|discriminate].
  intros H. injection H as <-. now split.
Qed.

(** A step that lands on a datetime, taken from a datetime, is short enough
    for a timedelta. *)
Lemma step_back_Ok (now : datetime) (m : Z) :
  valid_datetime now = true -> valid_datetime (now - minutes m) = true ->
  (d <- timedelta_of_minutes m ;; datetime_sub now d) = Ok (now - minutes m).
Proof.
  intros Hnow Ht. apply valid_datetime_spec in Hnow, Ht.
  rewrite minutes_valid_timedelta by lia. simpl.
  now apply datetime_sub_Ok.
Qed.

Lemma step_ahead_Ok (now : datetime) (m : Z) :
  valid_datetime now = true -> valid_datetime (now + minutes m) = true ->
  (d <- timedelta_of_minutes m ;; datetime_add now d) = Ok (now + minutes m).
Proof.
  intros Hnow Ht. apply valid_datetime_spec in Hnow, Ht.
  rewrite minutes_valid_timedelta by lia. simpl.
  now apply datetime_add_Ok.
Qed.

Lemma step_back_Raise (now : datetime) (m : Z) (e : exn) :
  (d <- timedelta_of_minutes m ;; datetime_sub now d) = Raise e ->
  e = OverflowError.
Proof.
  unfold timedelta_of_minutes, datetime_sub.
  destruct (valid_timedelta (minutes m)); simpl;
    [destruct (valid_datetime _)|]; congruence.
Qed.

Lemma step_ahead_Raise (now : datetime) (m : Z) (e : exn) :
  (d <- timedelta_of_minutes m ;; datetime_add now d) = Raise e ->
  e = OverflowError.
Proof.
  unfold timedelta_of_minutes, datetime_add.
  destruct (valid_timedelta (minutes m)); simpl;
    [destruct (valid_datetime _)|]; congruence.
Qed.

(** ** The generator: exceptions and edge cases *)

(** The generator past its comprehension: for a count that is not negative
    the two draws and the table never fail. *)
Lemma generate_after_times (now : datetime) (rs : RandomState)
    (num_points interval_minutes : Z) (ts : list datetime) :
  0 <= num_points ->
  comprehension
    (fun i => d <- timedelta_of_minutes (interval_minutes * i) ;;
              datetime_sub now d)
    (range 0 num_points) = Ok ts ->
  let n := Z.to_nat num_points in
  generate_real_time_data now rs num_points interval_minutes =
  Ok ([ (Time, TimeCol (sorted ts));
        (Traffic_Density,
         FloatCol (np_clip (map (fun i => (50 + 10 * rs i)%Q) (seq 0 n)) 20 100));
        (PM25,
         FloatCol (np_clip (map (fun i => (35 + 8 * rs (n + i)%nat)%Q) (seq 0 n))
                           10 80)) ],
      fun i => rs (n + (n + i))%nat).
Proof.
  intros Hn Hts n. unfold generate_real_time_data. rewrite Hts. simpl bind.
  unfold random_normal. destruct (Z.ltb_spec num_points 0) as [|_]; [lia|].
  simpl. unfold pd_DataFrame, same_lengths, np_clip. simpl.
  assert (Hlen : @List.length datetime (sorted ts) = Z.to_nat num_points).
  { change (@List.length datetime (sorted ts)) with (List.length (sorted ts)).
    rewrite sorted_length.
    apply comprehension_Ok, Forall2_length in Hts.
    rewrite range_length in Hts.
    transitivity (Z.to_nat (num_points - 0)); [symmetry; exact Hts|].
    f_equal. lia. }
  rewrite Hlen, !length_map, length_seq, Nat.eqb_refl.
  reflexivity.
Qed.

Lemma generate_negative (now : datetime) (rs : RandomState)
    (num_points interval_minutes : Z) :
  num_points < 0 ->
  generate_real_time_data now rs num_points interval_minutes = Raise ValueError.
Proof.
  intros Hc. unfold generate_real_time_data, range.
  replace (Z.to_nat (num_points - 0)) with 0%nat by lia. simpl.
  unfold random_normal.
  destruct (Z.ltb_spec num_points 0) as [_|]; [reflexivity | lia].
Qed.

(** X1: a negative count is refused by the sampler, after an empty list of
    timestamps was built: the generator raises [ValueError], whatever the
    clock and the interval. *)
Theorem generate_negative_count (now : datetime) (rs : RandomState)
    (count interval_minutes : Z) :
  count < 0 ->
  generate_real_time_data now rs count interval_minutes = Raise ValueError.
Proof.
  intros Hc. unfold generate_real_time_data.
  assert (Hempty : range 0 count = []).
  { unfold range. now replace (Z.to_nat (count - 0)) with 0%nat by lia. }
  rewrite Hempty. simpl comprehension. simpl bind.
  unfold random_normal.
  destruct (Z.ltb_spec count 0) as [_|Hge]; [reflexivity | lia].
Qed.

Lemma generate_negative_count_witness :
  generate_real_time_data sample_now sample_rs (-3) 5 = Raise ValueError.
Proof. apply generate_negative_count. lia. Defined.

(** X2: called at a datetime, the generator returns a table exactly when the
    count is not negative and every backward step lands on a datetime; the
    only exceptions it raises are [ValueError], for a negative count, and
    [OverflowError], for a step out of range. *)
Theorem generate_returns_iff (now : datetime) (rs : RandomState)
    (count interval_minutes : Z) :
  valid_datetime now = true ->
  ((exists df rs',
       generate_real_time_data now rs count interval_minutes = Ok (df, rs'))
   <-> 0 <= count
       /\ forall i, 0 <= i < count ->
                    valid_datetime (now - minutes (interval_minutes * i)) = true)
  /\ (forall e,
        generate_real_time_data now rs count interval_minutes = Raise e ->
        (e = ValueError /\ count < 0)
        \/ (e = OverflowError /\ 0 < count
            /\ exists i, 0 <= i < count
                 /\ valid_datetime (now - minutes (interval_minutes * i)) = false)).
Proof.
  intros Hnow.
  set (body := fun i => d <- timedelta_of_minutes (interval_minutes * i) ;;
                        datetime_sub now d).
  destruct (Z.ltb_spec count 0) as [Hneg|Hpos].
  { rewrite (generate_negative now rs count interval_minutes Hneg).
    split.
    - split; [intros (df & rs' & H); discriminate | intros [H _]; lia].
    - intros e H. injection H as <-. left. now split. }
  destruct (comprehension body (range 0 count)) as [ts|e0] eqn:Hts.
  - rewrite (generate_after_times now rs count interval_minutes ts Hpos Hts).
    split; [|discriminate].
    split; [|intros _; eexists; eexists; reflexivity].
    intros _. split; [exact Hpos|]. intros i Hi.
    destruct (comprehension_Ok_In body _ _ i Hts) as [t Ht];
      [now apply range_In|].
    now apply step_back_inv in Ht.
  - assert (Hrun : generate_real_time_data now rs count interval_minutes
                   = Raise e0).
    { unfold generate_real_time_data. fold body. now rewrite Hts. }
    destruct (comprehension_Raise_inv body _ _ Hts) as (i & Hin & Hi).
    apply range_In in Hin.
    assert (He0 : e0 = OverflowError) by now apply step_back_Raise in Hi.
    assert (Hbad : valid_datetime (now - minutes (interval_minutes * i)) = false).
    { destruct (valid_datetime (now - minutes (interval_minutes * i))) eqn:Hv;
        [|reflexivity].
      unfold body in Hi. rewrite (step_back_Ok now _ Hnow Hv) in Hi.
      discriminate. }
    rewrite Hrun. split.
    + split; [intros (df & rs' & H); discriminate|].
      intros [_ Hall]. rewrite (Hall i) in Hbad by lia. discriminate.
    + intros e H. injection H as <-. right.
      split; [exact He0|]. split; [lia|]. exists i. split; [lia | exact Hbad].
Qed.

Lemma generate_returns_iff_witness :
  (exists df rs', generate_real_time_data sample_now sample_rs 3 5 = Ok (df, rs'))
  /\ forall e,
       generate_real_time_data sample_now sample_rs 2 10000000000 = Raise e ->
       (e = ValueError /\ 2 < 0)
       \/ (e = OverflowError /\ 0 < 2
           /\ exists i, 0 <= i < 2
                /\ valid_datetime (sample_now - minutes (10000000000 * i)) = false).
Proof.
  split.
  - apply (generate_returns_iff sample_now sample_rs 3 5); [reflexivity|].
    split; [lia|]. intros i Hi.
    assert (Hc : i = 0 \/ i = 1 \/ i = 2) by lia.
    destruct Hc as [->|[->| ->]]; reflexivity.
  - apply (generate_returns_iff sample_now sample_rs 2 10000000000).
    reflexivity.
Defined.

(** X3: whatever the sign of the interval, the Time column of a returned
    table is in ascending order and holds exactly the backward steps
    now - interval * i, i = 0..count-1, each as often as it was produced. *)
Theorem generate_times_sorted (now : datetime) (rs rs' : RandomState)
    (count interval_minutes : Z) (df : DataFrame) :
  generate_real_time_data now rs count interval_minutes = Ok (df, rs') ->
  exists times,
    lookup_column df Time = Some (TimeCol times)
    /\ Sorted Z.le times
    /\ Permutation
         (map (fun i => now - minutes (interval_minutes * i)) (range 0 count))
         times.
Proof.
  intros H. unfold generate_real_time_data in H.
  destruct (comprehension _ _) as [ts|e] eqn:Hts; simpl in H; [|discriminate].
  destruct (random_normal 50 10 count rs) as [[xs rs1]|e]; simpl in H;
    [|discriminate].
  destruct (random_normal 35 8 count rs1) as [[ys rs2]|e]; simpl in H;
    [|discriminate].
  unfold pd_DataFrame in H. destruct (same_lengths _); simpl in H;
    [|discriminate].
  injection H as <- _.
  exists (sorted ts). split; [reflexivity|]. split; [apply sorted_Sorted|].
  apply (comprehension_Ok_map _
           (fun i => now - minutes (interval_minutes * i))) in Hts.
  - rewrite <- Hts. apply sorted_Permutation.
  - intros i t Ht. now apply step_back_inv in Ht.
Qed.

Lemma generate_times_sorted_witness :
  exists times,
    lookup_column
      (historical [sample_now; sample_now + minutes 5; sample_now + minutes 10]
                  [20; 20; 20]%Q [19; 35; 51]%Q)
      Time = Some (TimeCol times)
    /\ Sorted Z.le times
    /\ Permutation
         (map (fun i => sample_now - minutes (-5 * i)) (range 0 3)) times.
Proof.
  apply (generate_times_sorted sample_now sample_rs
           (fun i => sample_rs (3 + (3 + i))%nat) 3 (-5)).
  reflexivity.
Defined.

(** X4: the generator reads exactly 2 * count variates off the stream: the
    traffic value of row i is the clamped sample 50 + 10 * z_i, the
    air-quality value of row i is the clamped sample 35 + 8 * z_(count+i),
    and the returned state is the stream with those 2 * count variates
    gone. *)
Theorem generate_draws (now : datetime) (rs rs' : RandomState)
    (count interval_minutes : Z) (df : DataFrame) :
  generate_real_time_data now rs count interval_minutes = Ok (df, rs') ->
  let n := Z.to_nat count in
  exists traffic air,
    lookup_column df Traffic_Density = Some (FloatCol traffic)
    /\ lookup_column df PM25 = Some (FloatCol air)
    /\ List.length traffic = n /\ List.length air = n
    /\ (forall i, (i < n)%nat ->
          nth i traffic 0%Q = np_min (np_max (50 + 10 * rs i)%Q 20) 100)
    /\ (forall i, (i < n)%nat ->
          nth i air 0%Q = np_min (np_max (35 + 8 * rs (n + i)%nat)%Q 10) 80)
    /\ (forall i, rs' i = rs (2 * n + i)%nat).
Proof.
  intros H n. unfold generate_real_time_data in H.
  destruct (comprehension _ _) as [ts|e] eqn:Hts; simpl in H; [|discriminate].
  unfold random_normal in H.
  destruct (count <? 0); simpl in H; [discriminate|].
  unfold pd_DataFrame in H. destruct (same_lengths _); simpl in H;
    [|discriminate].
  injection H as <- <-. fold n.
  assert (Hnth : forall (f : nat -> Q) (lo hi : Q) i, (i < n)%nat ->
            nth i (np_clip (map f (seq 0 n)) lo hi) 0%Q
            = np_min (np_max (f i) lo) hi).
  { intros f lo hi i Hi. unfold np_clip. rewrite map_map.
    rewrite (nth_indep _ 0%Q (np_min (np_max (f 0%nat) lo) hi))
      by now rewrite length_map, length_seq.
    rewrite (map_nth (fun j => np_min (np_max (f j) lo) hi) (seq 0 n) 0%nat).
    now rewrite seq_nth. }
  eexists. eexists. split; [reflexivity|]. split; [reflexivity|].
  split; [unfold np_clip; now rewrite !length_map, length_seq|].
  split; [unfold np_clip; now rewrite !length_map, length_seq|].
  split; [intros i Hi; now rewrite Hnth|].
  split; [intros i Hi; now rewrite Hnth|].
  intros i. f_equal. lia.
Qed.

Lemma generate_draws_witness :
  exists traffic air,
    lookup_column
      (historical [sample_now - minutes 5; sample_now] [20; 20]%Q [10; 19]%Q)
      Traffic_Density = Some (FloatCol traffic)
    /\ lookup_column
         (historical [sample_now - minutes 5; sample_now] [20; 20]%Q [10; 19]%Q)
         PM25 = Some (FloatCol air)
    /\ nth 1 air 0%Q = np_min (np_max (35 + 8 * sample_rs 3%nat)%Q 10) 80.
Proof.
  destruct (generate_draws sample_now sample_rs
              (fun i => sample_rs (2 + (2 + i))%nat) 2 5
              (historical [sample_now - minutes 5; sample_now]
                          [20; 20]%Q [10; 19]%Q) eq_refl)
    as (traffic & air & Ht & Ha & _ & _ & _ & Hair & _).
  exists traffic, air. split; [exact Ht|]. split; [exact Ha|].
  apply (Hair 1%nat). simpl. lia.
Defined.

(** ** Clamping, case by case *)

Lemma clamp_cases (x lo hi : Q) :
  (lo <= hi)%Q ->
  ((x < lo)%Q -> (np_min (np_max x lo) hi == lo)%Q)
  /\ ((hi < x)%Q -> (np_min (np_max x lo) hi == hi)%Q)
  /\ ((lo <= x <= hi)%Q -> (np_min (np_max x lo) hi == x)%Q).
Proof.
  intros Hlh. unfold np_min, np_max, Qgtb, Qltb.
  destruct (Qle_bool x lo) eqn:Hxlo; simpl.
  - apply Qle_bool_iff in Hxlo.
    destruct (Qle_bool hi lo) eqn:Hhl; simpl.
    + apply Qle_bool_iff in Hhl.
      assert (Heq : (lo == hi)%Q) by now apply Qle_antisym.
      split; [intros _; now symmetry|]. split; [reflexivity|].
      intros [Hx _]. rewrite <- Heq. now apply Qle_antisym.
    + split; [reflexivity|]. split; [intros Hx; lra|].
      intros [Hx _]. now apply Qle_antisym.
  - assert (Hlx : (lo < x)%Q).
    { apply Qnot_le_lt. intros H. apply Qle_bool_iff in H. congruence. }
    destruct (Qle_bool hi x) eqn:Hhx; simpl.
    + apply Qle_bool_iff in Hhx.
      split; [intros Hx; lra|]. split; [reflexivity|].
      intros [_ Hx]. now apply Qle_antisym.
    + assert (Hxh : (x < hi)%Q).
      { apply Qnot_le_lt. intros H. apply Qle_bool_iff in H. congruence. }
      split; [intros Hx; lra|]. split; [intros Hx; lra | reflexivity].
Qed.

(** X5: clamping keeps the length of the array and acts on each entry by
    itself: an entry below the lower bound becomes the lower bound, one
    above the upper bound becomes the upper bound, and one within the bounds
    keeps its value. *)
Theorem np_clip_entries (a : list Q) (lo hi : Q) (i : nat) :
  (lo <= hi)%Q -> (i < List.length a)%nat ->
  List.length (np_clip a lo hi) = List.length a
  /\ ((nth i a 0 < lo)%Q -> (nth i (np_clip a lo hi) 0 == lo)%Q)
  /\ ((hi < nth i a 0)%Q -> (nth i (np_clip a lo hi) 0 == hi)%Q)
  /\ ((lo <= nth i a 0 <= hi)%Q -> (nth i (np_clip a lo hi) 0 == nth i a 0)%Q).
Proof.
  intros Hlh Hi. unfold np_clip. split; [apply length_map|].
  rewrite (nth_indep (map (fun x => np_min (np_max x lo) hi) a)
             0%Q (np_min (np_max 0 lo) hi))
    by now rewrite length_map.
  rewrite (map_nth (fun x => np_min (np_max x lo) hi) a 0%Q).
  now apply clamp_cases.
Qed.

Lemma np_clip_entries_witness :
  List.length (np_clip [-30; 35; 120]%Q 20 100) = 3%nat
  /\ ((nth 0 [-30; 35; 120] 0 < 20)%Q ->
      (nth 0 (np_clip [-30; 35; 120] 20 100) 0 == 20)%Q)
  /\ ((100 < nth 0 [-30; 35; 120] 0)%Q ->
      (nth 0 (np_clip [-30; 35; 120] 20 100) 0 == 100)%Q)
  /\ ((20 <= nth 0 [-30; 35; 120] 0 <= 100)%Q ->
      (nth 0 (np_clip [-30; 35; 120] 20 100) 0 == nth 0 [-30; 35; 120] 0)%Q).
Proof.
  apply (np_clip_entries [-30; 35; 120]%Q 20 100 0);
    [discriminate | simpl; lia].
Defined.

(** ** The forecast: exceptions and edge cases *)

Lemma forecast_after_times (now : datetime) (latest_value : Q)
    (steps interval_minutes : Z) (trend_factor : Q) (ts : list datetime) :
  comprehension
    (fun i => d <- timedelta_of_minutes (interval_minutes * i) ;;
              datetime_add now d)
    (range 1 (steps + 1)) = Ok ts ->
  generate_prediction_data now latest_value steps interval_minutes trend_factor =
  Ok [ (Time, TimeCol ts);
       (Predicted_Value,
        FloatCol (map (fun k => (latest_value * trend_factor ^ k)%Q)
                      (range 1 (steps + 1)))) ].
Proof.
  intros Hts. unfold generate_prediction_data. rewrite Hts. simpl bind.
  unfold pd_DataFrame, same_lengths, np_scale, np_power, np_arange. simpl.
  assert (Hlen : List.length (range 1 (steps + 1)) = @List.length datetime ts).
  { now apply comprehension_Ok, Forall2_length in Hts. }
  rewrite !length_map, Hlen, Nat.eqb_refl. simpl. now rewrite map_map.
Qed.

(** X6: with steps <= 0 the forecast is the table of zero rows with both
    columns; no timestamp is computed, so nothing can raise, whatever the
    clock and the interval. *)
Theorem forecast_no_steps (now : datetime) (latest_value : Q)
    (steps interval_minutes : Z) (trend_factor : Q) :
  steps <= 0 ->
  generate_prediction_data now latest_value steps interval_minutes trend_factor
  = Ok [ (Time, TimeCol []); (Predicted_Value, FloatCol []) ].
Proof.
  intros Hs. unfold generate_prediction_data, np_arange, range.
  replace (Z.to_nat (steps + 1 - 1)) with 0%nat by lia. reflexivity.
Qed.

Lemma forecast_no_steps_witness :
  generate_prediction_data sample_now 50 (-2) 10000000000 1.05
  = Ok [ (Time, TimeCol []); (Predicted_Value, FloatCol []) ].
Proof. apply forecast_no_steps. lia. Defined.

(** X7: called at a datetime, the forecast returns a table exactly when
    every timestamp now + interval * k, k = 1..steps, is a datetime; the only
    exception it raises is [OverflowError]. *)
Theorem forecast_returns_iff (now : datetime) (latest_value : Q)
    (steps interval_minutes : Z) (trend_factor : Q) :
  valid_datetime now = true ->
  ((exists df,
       generate_prediction_data now latest_value steps interval_minutes
         trend_factor = Ok df)
   <-> forall k, 1 <= k <= steps ->
                 valid_datetime (now + minutes (interval_minutes * k)) = true)
  /\ (forall e,
        generate_prediction_data now latest_value steps interval_minutes
          trend_factor = Raise e ->
        e = OverflowError).
Proof.
  intros Hnow.
  set (body := fun i => d <- timedelta_of_minutes (interval_minutes * i) ;;
                        datetime_add now d).
  destruct (comprehension body (range 1 (steps + 1))) as [ts|e0] eqn:Hts.
  - rewrite (forecast_after_times now latest_value steps interval_minutes
               trend_factor ts Hts).
    split; [|discriminate]. split; [|intros _; eexists; reflexivity].
    intros _ k Hk.
    destruct (comprehension_Ok_In body _ _ k Hts) as [t Ht];
      [apply range_In; lia|].
    now apply step_ahead_inv in Ht.
  - assert (Hrun : generate_prediction_data now latest_value steps
                     interval_minutes trend_factor = Raise e0).
    { unfold generate_prediction_data. fold body. now rewrite Hts. }
    destruct (comprehension_Raise_inv body _ _ Hts) as (k & Hin & Hk).
    apply range_In in Hin.
    rewrite Hrun. split.
    + split; [intros (df & H); discriminate|].
      intros Hall. unfold body in Hk.
      rewrite (step_ahead_Ok now _ Hnow (Hall k ltac:(lia))) in Hk.
      discriminate.
    + intros e H. injection H as <-. now apply step_ahead_Raise in Hk.
Qed.

Lemma forecast_returns_iff_witness :
  (exists df, generate_prediction_data sample_now 50 2 5 1.05 = Ok df)
  /\ forall e,
       generate_prediction_data sample_now 50 1 10000000000 1.05 = Raise e ->
       e = OverflowError.
Proof.
  split.
  - apply (forecast_returns_iff sample_now 50 2 5 1.05); [reflexivity|].
    intros k Hk. assert (Hc : k = 1 \/ k = 2) by lia.
    destruct Hc as [->| ->]; reflexivity.
  - apply (forecast_returns_iff sample_now 50 1 10000000000 1.05). reflexivity.
Defined.






(** ** The simulation block: ranges, monotonicity, missing columns *)

Lemma returned_traffic (h : heap) (df_rt : ref) (times : list datetime)
    (traffic air : list Q) (timing_adjustment green_zone_effect : Z) :
  nth_error h df_rt = Some (historical times traffic air) ->
  timing_adjustment <> 0 ->
  returned_column (simulate df_rt timing_adjustment green_zone_effect h)
    Simulated_Traffic_Density
  = Some (map (fun x => (x * (60 / inject_Z timing_adjustment))%Q) traffic).
Proof.
  intros Hrt Hnz. unfold returned_column, output_table.
  rewrite (simulate_historical _ _ _ _ _ _ _ Hrt Hnz).
  now rewrite nth_error_fresh.
Qed.

Lemma returned_pm (h : heap) (df_rt : ref) (times : list datetime)
    (traffic air : list Q) (timing_adjustment green_zone_effect : Z) :
  nth_error h df_rt = Some (historical times traffic air) ->
  timing_adjustment <> 0 ->
  returned_column (simulate df_rt timing_adjustment green_zone_effect h)
    Simulated_PM25
  = Some (map (fun x => (x * (1 - inject_Z green_zone_effect / 100))%Q) air).
Proof.
  intros Hrt Hnz. unfold returned_column, output_table.
  rewrite (simulate_historical _ _ _ _ _ _ _ Hrt Hnz).
  now rewrite nth_error_fresh.
Qed.

Lemma Forall2_scaled (P : Q -> Q -> Prop) (f : Q -> Q) (xs : list Q) :
  (forall x, In x xs -> P (f x) x) -> Forall2 P (map f xs) xs.
Proof.
  induction xs as [|x xs IH]; intros H; simpl; constructor.
  - apply H. now left.
  - apply IH. intros y Hy. apply H. now right.
Qed.

Lemma Forall2_two_scalings (P : Q -> Q -> Prop) (f g : Q -> Q) (xs : list Q) :
  (forall x, In x xs -> P (f x) (g x)) -> Forall2 P (map f xs) (map g xs).
Proof.
  induction xs as [|x xs IH]; intros H; simpl; constructor.
  - apply H. now left.
  - apply IH. intros y Hy. apply H. now right.
Qed.

Lemma cycle_factor_antitone (c1 c2 : Z) :
  0 < c1 -> c1 <= c2 -> (60 / inject_Z c2 <= 60 / inject_Z c1)%Q.
Proof.
  intros H1 H12.
  assert (Hq1 : (0 < inject_Z c1)%Q) by (unfold Qlt; simpl; lia).
  assert (Hq2 : (0 < inject_Z c2)%Q) by (unfold Qlt; simpl; lia).
  assert (Hq12 : (inject_Z c1 <= inject_Z c2)%Q) by (unfold Qle; simpl; lia).
  apply Qle_shift_div_l; [exact Hq1|].
  assert (E : (60 / inject_Z c2 * inject_Z c1
               == (60 * inject_Z c1) / inject_Z c2)%Q) by (field; lra).
  rewrite E. apply Qle_shift_div_r; [exact Hq2|]. nra.
Qed.

(** X10: on a historical table within the clamping ranges and for readings
    the two sliders can give, the block raises nothing; every simulated
    traffic value lies in [10,200] and every simulated PM2.5 value in
    [5,80]. *)
Theorem simulate_slider_ranges (h : heap) (df_rt : ref) (times : list datetime)
    (traffic air : list Q) (timing_adjustment green_zone_effect : Z) :
  nth_error h df_rt = Some (historical times traffic air) ->
  slider_reading 30 120 5 timing_adjustment = true ->
  slider_reading 0 50 5 green_zone_effect = true ->
  Forall (fun x => (20 <= x <= 100)%Q) traffic ->
  Forall (fun x => (10 <= x <= 80)%Q) air ->
  exists df_sim h' sim_traffic sim_pm,
    simulate df_rt timing_adjustment green_zone_effect h = (Ok df_sim, h')
    /\ returned_column (simulate df_rt timing_adjustment green_zone_effect h)
         Simulated_Traffic_Density = Some sim_traffic
    /\ returned_column (simulate df_rt timing_adjustment green_zone_effect h)
         Simulated_PM25 = Some sim_pm
    /\ Forall (fun x => (10 <= x <= 200)%Q) sim_traffic
    /\ Forall (fun x => (5 <= x <= 80)%Q) sim_pm.
Proof.
  intros Hrt Hc Hg Htraffic Hair.
  assert (Hnz : timing_adjustment <> 0) by now apply timing_slider_nonzero.
  unfold slider_reading in Hc, Hg.
  rewrite !andb_true_iff, !Z.leb_le in Hc, Hg.
  destruct Hc as [[Hc1 Hc2] _]. destruct Hg as [[Hg1 Hg2] _].
  eexists. eexists. eexists. eexists.
  split; [apply simulate_historical; eassumption|].
  split; [eapply returned_traffic; eassumption|].
  split; [eapply returned_pm; eassumption|].
  split.
  - assert (Hlo : (60 / inject_Z 120 <= 60 / inject_Z timing_adjustment)%Q)
      by (apply cycle_factor_antitone; lia).
    assert (Hhi : (60 / inject_Z timing_adjustment <= 60 / inject_Z 30)%Q)
      by (apply cycle_factor_antitone; lia).
    assert (Hlo' : (60 / inject_Z 120 == 1 # 2)%Q) by reflexivity.
    assert (Hhi' : (60 / inject_Z 30 == 2)%Q) by reflexivity.
    rewrite Hlo' in Hlo. rewrite Hhi' in Hhi.
    apply Forall_forall. intros y Hy. apply in_map_iff in Hy.
    destruct Hy as (x & <- & Hx).
    rewrite Forall_forall in Htraffic. specialize (Htraffic x Hx).
    remember (60 / inject_Z timing_adjustment)%Q as f.
    clear Heqf Hlo' Hhi'. destruct Htraffic as [Hx1 Hx2].
    split; nra.
  - assert (H0 : (0 <= inject_Z green_zone_effect)%Q)
      by (unfold Qle; simpl; lia).
    assert (H50 : (inject_Z green_zone_effect <= 50)%Q)
      by (unfold Qle; simpl; lia).
    assert (Hf : ((1 # 2) <= 1 - inject_Z green_zone_effect / 100 <= 1)%Q).
    { unfold Qdiv. change (/ 100)%Q with (1 # 100)%Q. split; lra. }
    apply Forall_forall. intros y Hy. apply in_map_iff in Hy.
    destruct Hy as (x & <- & Hx).
    rewrite Forall_forall in Hair. specialize (Hair x Hx).
    remember (1 - inject_Z green_zone_effect / 100)%Q as f.
    clear Heqf H0 H50. destruct Hair as [Hx1 Hx2]. destruct Hf as [Hf1 Hf2].
    split; nra.
Qed.

Lemma simulate_slider_ranges_witness :
  exists df_sim h' sim_traffic sim_pm,
    simulate 0%nat 120 50 sample_heap = (Ok df_sim, h')
    /\ returned_column (simulate 0%nat 120 50 sample_heap)
         Simulated_Traffic_Density = Some sim_traffic
    /\ returned_column (simulate 0%nat 120 50 sample_heap)
         Simulated_PM25 = Some sim_pm
    /\ Forall (fun x => (10 <= x <= 200)%Q) sim_traffic
    /\ Forall (fun x => (5 <= x <= 80)%Q) sim_pm.
Proof.
  apply (simulate_slider_ranges sample_heap 0%nat
           [sample_now - minutes 5; sample_now] [48; 52]%Q [30; 40]%Q 120 50);
    try reflexivity;
    repeat constructor; discriminate.
Defined.

(** X11: the simulated traffic falls as the signal cycle grows: on a table
    without negative traffic values, a run with cycle c2 >= c1 > 0 returns
    simulated traffic values no greater, row by row, than a run with cycle
    c1; a shorter cycle gives higher simulated densities. *)
Theorem simulate_traffic_antitone (h : heap) (df_rt : ref)
    (times : list datetime) (traffic air : list Q) (c1 c2 g1 g2 : Z) :
  nth_error h df_rt = Some (historical times traffic air) ->
  0 < c1 -> c1 <= c2 ->
  Forall (fun x => (0 <= x)%Q) traffic ->
  exists sim1 sim2,
    returned_column (simulate df_rt c1 g1 h) Simulated_Traffic_Density = Some sim1
    /\ returned_column (simulate df_rt c2 g2 h) Simulated_Traffic_Density
       = Some sim2
    /\ Forall2 Qle sim2 sim1.
Proof.
  intros Hrt H1 H12 Hpos.
  eexists. eexists.
  split; [eapply returned_traffic; [eassumption | lia]|].
  split; [eapply returned_traffic; [eassumption | lia]|].
  apply Forall2_two_scalings. intros x Hx.
  rewrite Forall_forall in Hpos. specialize (Hpos x Hx).
  pose proof (cycle_factor_antitone c1 c2 H1 H12) as Hf.
  rewrite !(Qmult_comm x). now apply Qmult_le_compat_r.
Qed.

Lemma simulate_traffic_antitone_witness :
  exists sim1 sim2,
    returned_column (simulate 0%nat 30 10 sample_heap) Simulated_Traffic_Density
    = Some sim1
    /\ returned_column (simulate 0%nat 90 10 sample_heap)
         Simulated_Traffic_Density = Some sim2
    /\ Forall2 Qle sim2 sim1.
Proof.
  apply (simulate_traffic_antitone sample_heap 0%nat
           [sample_now - minutes 5; sample_now] [48; 52]%Q [30; 40]%Q 30 90 10 10);
    [reflexivity | lia | lia | repeat constructor; discriminate].
Defined.

(** X12: for a green-zone percentage between 0 and 100 and a table without
    negative PM2.5 values, every simulated PM2.5 value lies between 0 and the
    base value of its row: the block only ever reduces PM2.5. *)
Theorem simulate_pm_reduced (h : heap) (df_rt : ref) (times : list datetime)
    (traffic air : list Q) (timing_adjustment green_zone_effect : Z) :
  nth_error h df_rt = Some (historical times traffic air) ->
  timing_adjustment <> 0 ->
  0 <= green_zone_effect <= 100 ->
  Forall (fun x => (0 <= x)%Q) air ->
  exists sim_pm,
    returned_column (simulate df_rt timing_adjustment green_zone_effect h)
      Simulated_PM25 = Some sim_pm
    /\ Forall2 (fun s b => (0 <= s /\ s <= b)%Q) sim_pm air.
Proof.
  intros Hrt Hnz Hg Hpos.
  eexists. split; [eapply returned_pm; eassumption|].
  apply Forall2_scaled. intros x Hx.
  rewrite Forall_forall in Hpos. specialize (Hpos x Hx).
  assert (H0 : (0 <= inject_Z green_zone_effect)%Q) by (unfold Qle; simpl; lia).
  assert (H100 : (inject_Z green_zone_effect <= 100)%Q)
    by (unfold Qle; simpl; lia).
  assert (Hf : (0 <= 1 - inject_Z green_zone_effect / 100 <= 1)%Q).
  { unfold Qdiv. change (/ 100)%Q with (1 # 100)%Q. split; lra. }
  remember (1 - inject_Z green_zone_effect / 100)%Q as f.
  clear Heqf H0 H100. destruct Hf as [Hf1 Hf2].
  split; nra.
Qed.

Lemma simulate_pm_reduced_witness :
  exists sim_pm,
    returned_column (simulate 0%nat 60 100 sample_heap) Simulated_PM25
    = Some sim_pm
    /\ Forall2 (fun s b => (0 <= s /\ s <= b)%Q) sim_pm [30; 40]%Q.
Proof.
  apply (simulate_pm_reduced sample_heap 0%nat
           [sample_now - minutes 5; sample_now] [48; 52]%Q [30; 40]%Q 60 100);
    [reflexivity | lia | lia | repeat constructor; discriminate].
Defined.

(** X13: on a table that has no traffic column the block raises [KeyError],
    before it divides by the signal cycle (so also for a cycle of 0); the
    copy it made stays on the heap, unchanged, and nothing else is
    touched. *)
Theorem simulate_missing_traffic (h : heap) (df_rt : ref) (base : DataFrame)
    (timing_adjustment green_zone_effect : Z) :
  nth_error h df_rt = Some base ->
  lookup_column base Traffic_Density = None ->
  simulate df_rt timing_adjustment green_zone_effect h
  = (Raise KeyError, h ++ [base]).
Proof.
  intros Hrt Hmiss. unfold simulate.
  unfold mbind at 1. rewrite (df_copy_run _ _ _ Hrt).
  block_step. now rewrite Hmiss.
Qed.

Lemma simulate_missing_traffic_witness :
  simulate 0%nat 0 10 [[(Time, TimeCol [sample_now])]]
  = (Raise KeyError,
     [[(Time, TimeCol [sample_now])]] ++ [[(Time, TimeCol [sample_now])]]).
Proof. apply simulate_missing_traffic; reflexivity. Defined.

(** The block on a table that already carries the two derived columns. *)
Lemma simulate_simulated (h : heap) (r : ref) (times : list datetime)
    (traffic air old_traffic old_pm : list Q)
    (timing_adjustment green_zone_effect : Z) :
  nth_error h r
  = Some (historical times traffic air
          ++ [ (Simulated_Traffic_Density, FloatCol old_traffic);
               (Simulated_PM25, FloatCol old_pm) ]) ->
  timing_adjustment <> 0 ->
  simulate r timing_adjustment green_zone_effect h =
  (Ok (List.length h),
   h ++ [ historical times traffic air ++
          [ (Simulated_Traffic_Density,
             FloatCol (map (fun x => (x * (60 / inject_Z timing_adjustment))%Q)
                           traffic));
            (Simulated_PM25,
             FloatCol (map (fun x => (x * (1 - inject_Z green_zone_effect / 100))%Q)
                           air)) ] ]).
Proof.
  intros Hr Hnz. unfold simulate.
  unfold mbind at 1. rewrite (df_copy_run _ _ _ Hr).
  block_step. simpl lookup_column.
  block_step. unfold truediv.
  destruct (Z.eqb_spec timing_adjustment 0) as [|_]; [contradiction|].
  block_step. simpl column_mul.
  block_step.
  block_step. simpl lookup_column.
  block_step. simpl (100 =? 0).
  block_step. simpl column_mul.
  block_step.
  reflexivity.
Qed.

(** X14: running the block on a table it has returned overwrites the two
    derived columns instead of adding two more: for any new readings with a
    cycle other than 0, the result is the table the block returns on the
    original historical table for those readings. *)
Theorem simulate_again (h : heap) (df_rt : ref) (times : list datetime)
    (traffic air : list Q) (c1 g1 c2 g2 : Z) :
  nth_error h df_rt = Some (historical times traffic air) ->
  c1 <> 0 -> c2 <> 0 ->
  exists df_sim h1,
    simulate df_rt c1 g1 h = (Ok df_sim, h1)
    /\ output_table (simulate df_sim c2 g2 h1)
       = output_table (simulate df_rt c2 g2 h)
    /\ (forall df, output_table (simulate df_sim c2 g2 h1) = Ok df ->
                   List.length (column_names df) = 5%nat).
Proof.
  intros Hrt H1 H2. eexists. eexists.
  split; [apply simulate_historical; eassumption|].
  rewrite (simulate_simulated _ _ times traffic air _ _ c2 g2
             (nth_error_fresh h _) H2).
  rewrite (simulate_historical _ _ _ _ _ c2 g2 Hrt H2).
  unfold output_table. rewrite !nth_error_fresh.
  split; [reflexivity|]. intros df Hdf. injection Hdf as <-. reflexivity.
Qed.

Lemma simulate_again_witness :
  exists df_sim h1,
    simulate 0%nat 30 10 sample_heap = (Ok df_sim, h1)
    /\ output_table (simulate df_sim 90 50 h1)
       = output_table (simulate 0%nat 90 50 sample_heap)
    /\ (forall df, output_table (simulate df_sim 90 50 h1) = Ok df ->
                   List.length (column_names df) = 5%nat).
Proof.
  apply (simulate_again sample_heap 0%nat
           [sample_now - minutes 5; sample_now] [48; 52]%Q [30; 40]%Q 30 10 90 50);
    [reflexivity | lia | lia].
Defined.

(** X15: a run of the block on an existing table puts exactly one new
    object on the heap, whether it returns or raises, and the address it
    returns is that of the new object. *)
Theorem simulate_allocates_one (h : heap) (df_rt : ref) (base : DataFrame)
    (timing_adjustment green_zone_effect : Z) :
  nth_error h df_rt = Some base ->
  List.length (snd (simulate df_rt timing_adjustment green_zone_effect h))
  = S (List.length h)
  /\ (forall df_sim,
        fst (simulate df_rt timing_adjustment green_zone_effect h) = Ok df_sim ->
        df_sim = List.length h).
Proof.
  intros Hrt.
  destruct (simulate_depends_on_base base timing_adjustment green_zone_effect)
    as (outcome & final & Hrun).
  rewrite (Hrun h df_rt Hrt). simpl. split.
  - rewrite length_app. simpl. lia.
  - intros df_sim H. destruct outcome; [now injection H as <- | discriminate].
Qed.

Lemma simulate_allocates_one_witness :
  List.length (snd (simulate 0%nat 0 10 sample_heap)) = 2%nat
  /\ (forall df_sim,
        fst (simulate 0%nat 0 10 sample_heap) = Ok df_sim -> df_sim = 1%nat).
Proof.
  apply (simulate_allocates_one sample_heap 0%nat
           (historical [sample_now - minutes 5; sample_now] [48; 52]%Q [30; 40]%Q)).
  reflexivity.
Defined.

(** ** The page script *)

Lemma last_map_seq {B : Type} (f : nat -> B) (n : nat) (d : B) :
  last (map f (seq 0 (S n))) d = f n.
Proof.
  rewrite seq_S, map_app. simpl. apply last_last.
Qed.

(** The newest reading of a clamped column of n + 1 samples. *)
Lemma iloc_last_clip (f : nat -> Q) (n : nat) (lo hi : Q) (h : heap) :
  iloc_last (FloatCol (np_clip (map f (seq 0 (S n))) lo hi)) h
  = (Done (np_min (np_max (f n) lo) hi), h).
Proof.
  unfold np_clip. rewrite map_map.
  rewrite <- (last_map_seq (fun i => np_min (np_max (f i) lo) hi) n 0%Q).
  unfold iloc_last.
  destruct (map _ (seq 0 (S n))) eqn:Hm; [discriminate | reflexivity].
Qed.

(** The tables of a run of the script, for clock readings from which the
    defaults stay within the range of [datetime]. *)
Lemma page_run (now_rt : datetime) (rs : RandomState)
    (now_traffic now_air : datetime)
    (timing_adjustment green_zone_effect : Z) (h : heap) :
  0 <= now_rt - minutes 495 -> now_rt <= datetime_max ->
  0 <= now_traffic -> now_traffic + minutes 60 <= datetime_max ->
  0 <= now_air -> now_air + minutes 60 <= datetime_max ->
  timing_adjustment <> 0 ->
  let times := rev (map (fun i => now_rt - minutes (5 * i)) (range 0 100)) in
  let traffic :=
    np_clip (map (fun i => (50 + 10 * rs i)%Q) (seq 0 100)) 20 100 in
  let air :=
    np_clip (map (fun i => (35 + 8 * rs (100 + i)%nat)%Q) (seq 0 100)) 10 80 in
  let latest_traffic := np_min (np_max (50 + 10 * rs 99%nat)%Q 20) 100 in
  let latest_pm25 := np_min (np_max (35 + 8 * rs 199%nat)%Q 10) 80 in
  let forecast := fun (now : datetime) (v : Q) =>
    [ (Time, TimeCol (map (fun k => now + minutes (5 * k)) (range 1 (12 + 1))));
      (Predicted_Value,
       FloatCol (map (fun k => (v * 1.05 ^ k)%Q) (range 1 (12 + 1)))) ] in
  page now_rt rs now_traffic now_air timing_adjustment green_zone_effect h
  = (Done {| view_rt := List.length h;
             view_head := df_head (historical times traffic air);
             view_pred_traffic := forecast now_traffic latest_traffic;
             view_pred_air := forecast now_air latest_pm25;
             view_sim := List.length (h ++ [historical times traffic air]) |},
     (h ++ [historical times traffic air])
     ++ [ historical times traffic air ++
          [ (Simulated_Traffic_Density,
             FloatCol (map (fun x => (x * (60 / inject_Z timing_adjustment))%Q)
                           traffic));
            (Simulated_PM25,
             FloatCol (map (fun x => (x * (1 - inject_Z green_zone_effect / 100))%Q)
                           air)) ] ]).
Proof.
  intros Hrt0 Hrt1 Ht0 Ht1 Ha0 Ha1 Hnz times traffic air latest_traffic
    latest_pm25 forecast.
  pose proof (generate_real_time_data_Ok now_rt rs 100 5) as Hgen.
  cbv zeta in Hgen. change (Z.to_nat 100) with 100%nat in Hgen.
  unfold page.
  unfold pbind at 1. unfold of_result at 1.
  rewrite Hgen by (unfold minutes in *; lia).
  fold times traffic air. fold (historical times traffic air).
  unfold pbind at 1. unfold new_object at 1. simpl fst.
  unfold pbind at 1. unfold of_M at 1. rewrite deref_fresh.
  unfold pbind at 1. unfold of_M at 1. rewrite df_getitem_fresh.
  simpl lookup_column.
  unfold pbind at 1. unfold traffic at 1.
  rewrite (iloc_last_clip (fun i => (50 + 10 * rs i)%Q) 99 20 100).
  fold latest_traffic.
  unfold pbind at 1. unfold of_result at 1.
  rewrite (generate_prediction_data_Ok now_traffic latest_traffic 12 5 1.05)
    by (unfold minutes in *; lia).
  fold (forecast now_traffic latest_traffic).
  unfold pbind at 1. unfold of_M at 1. rewrite df_getitem_fresh.
  simpl lookup_column.
  unfold pbind at 1. unfold air at 1.
  rewrite (iloc_last_clip (fun i => (35 + 8 * rs (100 + i)%nat)%Q) 99 10 80).
  change (100 + 99)%nat with 199%nat. fold latest_pm25.
  unfold pbind at 1. unfold of_result at 1.
  rewrite (generate_prediction_data_Ok now_air latest_pm25 12 5 1.05)
    by (unfold minutes in *; lia).
  fold (forecast now_air latest_pm25).
  unfold pbind at 1. unfold of_M at 1.
  rewrite (simulate_historical (h ++ [historical times traffic air])
             (List.length h) times traffic air timing_adjustment
             green_zone_effect (nth_error_fresh h _) Hnz).
  reflexivity.
Qed.



(** X17: in a run of the script each forecast starts from the newest
    reading, the last entry of its column of [df_rt]; every predicted
    traffic value is greater than that reading and lies in [21,180), every
    predicted PM2.5 value is greater than its reading and lies in
    [10.5,144): the forecasts always point upward and pass the clamping
    bounds of the historical data. *)
Theorem page_forecasts (now_rt : datetime) (rs : RandomState)
    (now_traffic now_air : datetime)
    (timing_adjustment green_zone_effect : Z) (h : heap) :
  minutes 495 <= now_rt <= datetime_max ->
  0 <= now_traffic <= datetime_max - minutes 60 ->
  0 <= now_air <= datetime_max - minutes 60 ->
  timing_adjustment <> 0 ->
  exists view h' table traffic air pred_traffic pred_air,
    page now_rt rs now_traffic now_air timing_adjustment green_zone_effect h
    = (Done view, h')
    /\ nth_error h' (view_rt view) = Some table
    /\ lookup_column table Traffic_Density = Some (FloatCol traffic)
    /\ lookup_column table PM25 = Some (FloatCol air)
    /\ lookup_column (view_pred_traffic view) Predicted_Value
       = Some (FloatCol pred_traffic)
    /\ lookup_column (view_pred_air view) Predicted_Value
       = Some (FloatCol pred_air)
    /\ Forall (fun v => (last traffic 0 < v /\ 21 <= v /\ v < 180)%Q)
              pred_traffic
    /\ Forall (fun v => (last air 0 < v /\ 10.5 <= v /\ v < 144)%Q) pred_air.
Proof.
  intros Hrt Ht Ha Hnz.
  eexists. eexists. eexists. eexists. eexists. eexists. eexists.
  split; [apply page_run; lia|].
  split; [simpl view_rt; apply nth_error_alloc, nth_error_fresh|].
  split; [reflexivity|]. split; [reflexivity|].
  split; [reflexivity|]. split; [reflexivity|].
  assert (Hup : forall (f : nat -> Q) (lo hi lo' hi' : Q),
            (0 < lo)%Q -> (lo <= hi)%Q ->
            (lo' <= lo * 1.05 ^ 1)%Q -> (hi * 1.05 ^ 12 < hi')%Q ->
            Forall (fun v =>
                      (last (np_clip (map f (seq 0 100)) lo hi) 0 < v
                       /\ lo' <= v /\ v < hi')%Q)
                   (map (fun k => (np_min (np_max (f 99%nat) lo) hi * 1.05 ^ k)%Q)
                        (range 1 (12 + 1)))).
  { intros f lo hi lo' hi' Hlo Hlh Hlo' Hhi'.
    assert (Hlast : last (np_clip (map f (seq 0 100)) lo hi) 0%Q
                    = np_min (np_max (f 99%nat) lo) hi).
    { unfold np_clip. rewrite map_map.
      exact (last_map_seq (fun i => np_min (np_max (f i) lo) hi) 99 0%Q). }
    rewrite Hlast.
    pose proof (np_clip_bounds (f 99%nat) lo hi Hlh) as [Hb1 Hb2].
    remember (np_min (np_max (f 99%nat) lo) hi) as v0. clear Heqv0 Hlast.
    apply Forall_forall. intros v Hin. apply in_map_iff in Hin.
    destruct Hin as (k & <- & Hk). apply range_In in Hk.
    assert (H1 : (1.05 ^ 1 <= 1.05 ^ k)%Q)
      by (apply Qpower_le_compat_l; [lia | discriminate]).
    assert (H2 : (1.05 ^ k <= 1.05 ^ 12)%Q)
      by (apply Qpower_le_compat_l; [lia | discriminate]).
    assert (H3 : (1.05 ^ 1 == 21 # 20)%Q) by reflexivity.
    remember (1.05 ^ k)%Q as p. remember (1.05 ^ 12)%Q as p12.
    rewrite H3 in H1, Hlo'. clear Heqp H3.
    assert (Hp12 : (0 < p12)%Q) by lra.
    split; [nra|]. split; [nra|].
    apply Qle_lt_trans with (hi * p12)%Q; [|exact Hhi'].
    apply Qle_trans with (v0 * p12)%Q.
    - rewrite !(Qmult_comm v0). apply Qmult_le_compat_r; lra.
    - apply Qmult_le_compat_r; lra. }
  split.
  - apply (Hup (fun i => (50 + 10 * rs i)%Q) 20 100 21 180)%Q;
      [reflexivity | discriminate | discriminate | reflexivity].
  - apply (Hup (fun i => (35 + 8 * rs (100 + i)%nat)%Q) 10 80 10.5 144)%Q;
      [reflexivity | discriminate | discriminate | reflexivity].
Qed.

Lemma page_forecasts_witness :
  exists view h' pred_traffic,
    page sample_now sample_rs (sample_now + 1) (sample_now + 2) 45 10 []
    = (Done view, h')
    /\ lookup_column (view_pred_traffic view) Predicted_Value
       = Some (FloatCol pred_traffic)
    /\ Forall (fun v => (21 <= v /\ v < 180)%Q) pred_traffic.
Proof.
  destruct (page_forecasts sample_now sample_rs (sample_now + 1) (sample_now + 2)
              45 10 [])
    as (view & h' & table & traffic & air & pred_traffic & pred_air
        & Hrun & _ & _ & _ & Hcol & _ & Hall & _);
    [ vm_compute; split; discriminate | vm_compute; split; discriminate
    | vm_compute; split; discriminate | lia |].
  exists view, h', pred_traffic. split; [exact Hrun|]. split; [exact Hcol|].
  eapply Forall_impl; [|exact Hall]. intros v (_ & H1 & H2). now split.
Defined.

(** X18: the table the script shows with [df_rt.head()] holds the five
    oldest rows of [df_rt], from 495 to 475 minutes before the clock reading
    of the generator, not the newest ones. *)
Theorem page_head_oldest (now_rt : datetime) (rs : RandomState)
    (now_traffic now_air : datetime)
    (timing_adjustment green_zone_effect : Z) (h : heap) :
  minutes 495 <= now_rt <= datetime_max ->
  0 <= now_traffic <= datetime_max - minutes 60 ->
  0 <= now_air <= datetime_max - minutes 60 ->
  timing_adjustment <> 0 ->
  exists view h',
    page now_rt rs now_traffic now_air timing_adjustment green_zone_effect h
    = (Done view, h')
    /\ column_names (view_head view) = [Time; Traffic_Density; PM25]
    /\ lookup_column (view_head view) Time
       = Some (TimeCol [ now_rt - minutes 495; now_rt - minutes 490;
                         now_rt - minutes 485; now_rt - minutes 480;
                         now_rt - minutes 475 ]).
Proof.
  intros Hrt Ht Ha Hnz.
  eexists. eexists.
  split; [apply page_run; lia|].
  split; [reflexivity|].
  simpl view_head. reflexivity.
Qed.

Lemma page_head_oldest_witness :
  exists view h',
    page sample_now sample_rs (sample_now + 1) (sample_now + 2) 45 10 []
    = (Done view, h')
    /\ lookup_column (view_head view) Time
       = Some (TimeCol [ sample_now - minutes 495; sample_now - minutes 490;
                         sample_now - minutes 485; sample_now - minutes 480;
                         sample_now - minutes 475 ]).
Proof.
  destruct (page_head_oldest sample_now sample_rs (sample_now + 1)
              (sample_now + 2) 45 10 [])
    as (view & h' & Hrun & _ & Htime);
    [ vm_compute; split; discriminate | vm_compute; split; discriminate
    | vm_compute; split; discriminate | lia |].
  exists view, h'. split; assumption.
Defined.

(** ** The generator on an interval that is not positive *)

(** Inserting an element no greater than all the others puts it first. *)
Lemma insert_first (x : Z) (l : list Z) :
  Forall (fun y => x <= y) l -> insert x l = x :: l.
Proof.
  induction 1 as [|y l Hy _ IH]; simpl; [reflexivity|].
  destruct (Z.ltb_spec x y) as [_|Hle]; [reflexivity|].
  assert (y = x) by lia. subst y. now rewrite IH.
Qed.

(** On a list that does not descend, [sorted] changes nothing. *)
Lemma sorted_ascending (l : list Z) :
  (forall i j, (i < j < List.length l)%nat -> nth i l 0 <= nth j l 0) ->
  sorted l = l.
Proof.
  induction l as [|x l IH]; intros Ha; simpl; [reflexivity|].
  rewrite IH.
  - apply insert_first. apply Forall_forall. intros y Hy.
    apply (In_nth _ _ 0) in Hy. destruct Hy as [j [Hj <-]].
    apply (Ha 0%nat (S j)). simpl. lia.
  - intros i j Hij. apply (Ha (S i) (S j)). simpl. lia.
Qed.

(** X19: an interval that is not positive is accepted as it is: when the
    last step, now - interval * (count - 1) minutes, is still a datetime, the
    generator returns count rows whose timestamps start at [now] and run
    forward from it, |interval| minutes apart; with interval = 0 every row
    carries the timestamp [now]. *)
Theorem generate_interval_not_positive (now : datetime) (rs : RandomState)
    (count interval_minutes : Z) :
  valid_datetime now = true ->
  0 < count -> interval_minutes <= 0 ->
  now - minutes (interval_minutes * (count - 1)) <= datetime_max ->
  exists times traffic air rs',
    generate_real_time_data now rs count interval_minutes
    = Ok (historical times traffic air, rs')
    /\ List.length times = Z.to_nat count
    /\ nth 0 times 0 = now
    /\ (forall k, 0 <= k < count ->
          nth (Z.to_nat k) times 0 = now + minutes (- interval_minutes * k))
    /\ (interval_minutes = 0 -> Forall (fun t => t = now) times).
Proof.
  intros Hnow Hcount Hint Hmax. apply valid_datetime_spec in Hnow.
  set (f := fun i => now - minutes (interval_minutes * i)).
  assert (Hts : comprehension
                  (fun i => d <- timedelta_of_minutes (interval_minutes * i) ;;
                            datetime_sub now d)
                  (range 0 count) = Ok (map f (range 0 count))).
  { apply comprehension_map. intros i Hi. apply range_In in Hi.
    apply step_back_Ok; apply valid_datetime_spec; unfold minutes in *; nia. }
  assert (Hsorted : sorted (map f (range 0 count)) = map f (range 0 count)).
  { apply sorted_ascending. rewrite length_map, range_length. intros i j Hij.
    rewrite !map_range_nth by lia. unfold f, minutes. nia. }
  eexists. eexists. eexists. eexists. split.
  { rewrite (generate_after_times now rs count interval_minutes _
               ltac:(lia) Hts).
    rewrite Hsorted. reflexivity. }
  split; [rewrite length_map, range_length; f_equal; lia|].
  split.
  { rewrite (map_range_nth f 0 count 0%nat) by lia. unfold f, minutes.
    simpl. lia. }
  split.
  - intros k Hk. rewrite map_range_nth by lia. unfold f, minutes.
    rewrite Z2Nat.id by lia. lia.
  - intros ->. apply Forall_forall. intros t Ht. apply in_map_iff in Ht.
    destruct Ht as (i & <- & _). unfold f, minutes. lia.
Qed.

Lemma generate_interval_not_positive_witness :
  exists times traffic air rs',
    generate_real_time_data sample_now sample_rs 3 (-5)
    = Ok (historical times traffic air, rs')
    /\ nth 0 times 0 = sample_now
    /\ nth 2 times 0 = sample_now + minutes 10.
Proof.
  destruct (generate_interval_not_positive sample_now sample_rs 3 (-5))
    as (times & traffic & air & rs' & Hrun & _ & Hfirst & Hk & _);
    [reflexivity | lia | lia | vm_compute; discriminate |].
  exists times, traffic, air, rs'.
  split; [exact Hrun|]. split; [exact Hfirst|].
  exact (Hk 2 ltac:(lia)).
Defined.
